(** * The session and transport layer of mcp-jira-confluence-sse

    A shallow embedding of [src/mcp_jira_confluence/sse_server.py]: the
    synchronous JSON-RPC processor ([mcp_endpoint], [process_mcp_request]),
    the credential override it derives from the request headers, the swap of
    the dispatcher's module-level clients around a call, the SSE
    transport ([SSETransport], [sse_endpoint], [event_stream]), the health
    check and the application's lifespan; with it the requests of the client
    in [sse_client.py] and the environment checks of the two launchers,
    [run_sse.py] and [start_sse.py].

    Python objects live in a heap indexed by locations, so that object
    identity (which client the dispatcher sees) and mutation (whether the
    default configuration is touched) can be stated.  Effectful code is
    written in a state-and-exception monad over that heap. *)

From Stdlib Require Import ZArith QArith Ascii String.
From stdpp Require Import base option gmap sets list strings pretty.

Local Open Scope string_scope.
Local Open Scope list_scope.
Set Warnings "-register-all".

(** ** Python values *)

(** What [json.loads] / [request.json()] can produce, and what the handlers
    return.  A dict is an association list in insertion order; the parser
    produces unique keys. *)
Inductive json : Type :=
  | JNull
  | JBool (b : bool)
  | JInt (n : Z)
  | JFloat (x : Q)
  | JStr (s : string)
  | JArr (items : list json)
  | JObj (fields : list (string * json)).

(** An instance of [Exception]: its class name and [str(e)]. *)
Inductive exn : Type :=
  | Exn (cls : string) (msg : string).

Definition str_exn (e : exn) : string :=
  match e with Exn _ msg => msg end.

Inductive outcome (A : Type) : Type :=
  | Ok (a : A)
  | Raised (e : exn).
Arguments Ok {A} a.
Arguments Raised {A} e.

Definition type_name (v : json) : string :=
  match v with
  | JNull => "NoneType"
  | JBool _ => "bool"
  | JInt _ => "int"
  | JFloat _ => "float"
  | JStr _ => "str"
  | JArr _ => "list"
  | JObj _ => "dict"
  end.

Fixpoint dict_get (fields : list (string * json)) (key : string) : option json :=
  match fields with
  | [] => None
  | (k, v) :: rest => if String.eqb k key then Some v else dict_get rest key
  end.

(** [v.get(key, dflt)]: only a dict has [get]; on any other value the
    attribute lookup raises [AttributeError]. *)
Definition py_get (v : json) (key : string) (dflt : json) : outcome json :=
  match v with
  | JObj fields => Ok (default dflt (dict_get fields key))
  | _ => Raised (Exn "AttributeError"
                     ("'" +:+ type_name v +:+ "' object has no attribute 'get'"))
  end.

(** [method == "literal"] for a value that came out of the body. *)
Definition str_eq (v : json) (s : string) : bool :=
  match v with
  | JStr s' => String.eqb s' s
  | _ => false
  end.

(** Truth value of an [Optional[str]]: [None] and [""] are falsy. *)
Definition truthy (t : option string) : bool :=
  match t with
  | Some s => negb (String.eqb s "")
  | None => false
  end.

Definition opt_str (o : option string) : json :=
  match o with Some s => JStr s | None => JNull end.

(** ** Configurations, clients and the heap *)

Inductive service : Type := Jira | Confluence.

Inductive Credential : Type :=
  | PersonalToken (personal_token : string)
  | UsernameApiToken (username api_token : string).

(** Modelled from the spec: the declarations of [JiraConfig] and
    [ConfluenceConfig] ([config.py]) are not part of the sources.  The spec
    gives a service configuration as base URL, credential (a token, or a
    username with an API token) and TLS-verify flag; the constructor calls in
    [sse_server.py] name the fields [url], [personal_token], [ssl_verify]. *)
Record ServiceConfig : Type := {
  url : string;
  credential : Credential;
  ssl_verify : bool
}.

Definition loc := positive.

(** Heap objects: configuration instances, and client instances holding a
    reference to their configuration ([client.config]). *)
Inductive object : Type :=
  | Config (svc : service) (cfg : ServiceConfig)
  | Client (svc : service) (config : loc).

(** What the dispatcher can reach: the heap and the two module-level names
    [server_module.jira_client] and [server_module.confluence_client]. *)
Record Store : Type := {
  heap : gmap loc object;
  server_jira_client : loc;
  server_confluence_client : loc
}.

(** One entry per dispatcher entry point entered, with the clients bound to
    the module-level names of [server_module] at that moment. *)
Inductive dispatch_call : Type :=
  | CallTool (tool_name arguments : json) (jira confluence : loc)
  | ListResources (jira confluence : loc)
  | ListTools (jira confluence : loc).


(** The store together with the record of dispatcher calls. *)
Record World : Type := {
  store : Store;
  calls : list dispatch_call
}.

(** ** The state-and-exception monad *)

Definition M (A : Type) : Type := World → outcome A * World.

Definition ret {A} (a : A) : M A := λ w, (Ok a, w).

Definition bind {A B} (m : M A) (k : A → M B) : M B :=
  λ w, match m w with
       | (Ok a, w') => k a w'
       | (Raised e, w') => (Raised e, w')
       end.

#[global] Instance M_ret : MRet M := @ret.
#[global] Instance M_bind : MBind M := λ A B k m, bind m k.

Definition lift {A} (o : outcome A) : M A := λ w, (o, w).

(** [try: body except Exception as e: handler e] *)
Definition try_except {A} (body : M A) (handler : exn → M A) : M A :=
  λ w, match body w with
       | (Ok a, w') => (Ok a, w')
       | (Raised e, w') => handler e w'
       end.

(** [try: body finally: cleanup] *)
Definition try_finally {A} (body : M A) (cleanup : M unit) : M A :=
  λ w, match body w with
       | (r, w') =>
           match cleanup w' with
           | (Ok _, w'') => (r, w'')
           | (Raised e, w'') => (Raised e, w'')
           end
       end.

Definition get_server_jira_client : M loc :=
  λ w, (Ok (server_jira_client (store w)), w).

Definition get_server_confluence_client : M loc :=
  λ w, (Ok (server_confluence_client (store w)), w).

Definition set_server_jira_client (c : loc) : M unit :=
  λ w, (Ok (),
        {| store := {| heap := heap (store w);
                       server_jira_client := c;
                       server_confluence_client := server_confluence_client (store w) |};
           calls := calls w |}).

Definition set_server_confluence_client (c : loc) : M unit :=
  λ w, (Ok (),
        {| store := {| heap := heap (store w);
                       server_jira_client := server_jira_client (store w);
                       server_confluence_client := c |};
           calls := calls w |}).

(** Object construction: the new object gets a location not in use. *)
Definition alloc (o : object) : M loc :=
  λ w, let l := fresh (dom (heap (store w))) in
       (Ok l,
        {| store := {| heap := <[l := o]> (heap (store w));
                       server_jira_client := server_jira_client (store w);
                       server_confluence_client := server_confluence_client (store w) |};
           calls := calls w |}).

(** [client.config], read through the heap. *)
Definition client_config (client : loc) : M ServiceConfig :=
  λ w, match heap (store w) !! client with
       | Some (Client _ c) =>
           match heap (store w) !! c with
           | Some (Config _ cfg) => (Ok cfg, w)
           | _ => (Raised (Exn "AttributeError" "object has no attribute 'url'"), w)
           end
       | _ => (Raised (Exn "AttributeError" "object has no attribute 'config'"), w)
       end.

(** [JiraConfig(url=..., personal_token=..., ssl_verify=...)] *)
Definition JiraConfig (url : string) (personal_token : string) (ssl_verify : bool) : M loc :=
  alloc (Config Jira {| url := url;
                        credential := PersonalToken personal_token;
                        ssl_verify := ssl_verify |}).

Definition ConfluenceConfig (url : string) (personal_token : string) (ssl_verify : bool) : M loc :=
  alloc (Config Confluence {| url := url;
                              credential := PersonalToken personal_token;
                              ssl_verify := ssl_verify |}).

Definition JiraClient (config : loc) : M loc := alloc (Client Jira config).

Definition ConfluenceClient (config : loc) : M loc := alloc (Client Confluence config).

(** ** JSON-RPC envelopes *)

Definition result_envelope (request_id result : json) : json :=
  JObj [("jsonrpc", JStr "2.0"); ("id", request_id); ("result", result)].

Definition error_envelope (request_id : json) (code : Z) (message : string)
    (data : option string) : json :=
  JObj [("jsonrpc", JStr "2.0");
        ("id", request_id);
        ("error", JObj ([("code", JInt code); ("message", JStr message)]
                        ++ match data with
                           | Some d => [("data", JStr d)]
                           | None => []
                           end))].

Definition server_info : json :=
  JObj [("name", JStr "mcp-jira-confluence"); ("version", JStr "0.3.0")].

Record Tool : Type := {
  tool_name : string;
  tool_description : option string;
  tool_inputSchema : json
}.

Record Resource : Type := {
  resource_uri : string;
  resource_name : string;
  resource_description : option string;
  resource_mimeType : option string
}.

Definition tool_entry (tool : Tool) : json :=
  JObj [("name", JStr (tool_name tool));
        ("description", opt_str (tool_description tool));
        ("inputSchema", tool_inputSchema tool)].

Definition resource_entry (resource : Resource) : json :=
  JObj [("uri", JStr (resource_uri resource));
        ("name", JStr (resource_name resource));
        ("description", opt_str (resource_description resource));
        ("mimeType", opt_str (resource_mimeType resource))].

(** ** HTTP requests *)

(** Header names as the ASGI server delivers them (lower case); the body is
    given by the outcome of [await request.json()]. *)
Record Request : Type := {
  headers : list (string * string);
  request_json : outcome json
}.

Fixpoint headers_get (hs : list (string * string)) (name : string) : option string :=
  match hs with
  | [] => None
  | (k, v) :: rest => if String.eqb k name then Some v else headers_get rest name
  end.

(** [auth_header and auth_header.startswith("Bearer ")], then
    [auth_header[7:]]. *)
Definition bearer_token (auth_header : option string) : option string :=
  match auth_header with
  | Some h =>
      if negb (String.eqb h "") && String.prefix "Bearer " h
      then Some (String.substring 7 (String.length h - 7) h)
      else None
  | None => None
  end.

(** Lines 241-252 (and 136-147): the tokens handed on for the two services. *)
Definition request_tokens (hs : list (string * string)) : option string * option string :=
  let auth_header := headers_get hs "authorization" in
  let jira_token := headers_get hs "x-jira-token" in
  let confluence_token := headers_get hs "x-confluence-token" in
  match bearer_token auth_header with
  | Some token =>
      (if negb (truthy jira_token) then Some token else jira_token,
       if negb (truthy confluence_token) then Some token else confluence_token)
  | None => (jira_token, confluence_token)
  end.

(** ** The SSE transport *)

(** [SSETransport]: the queues are [asyncio.Queue] objects, known by their
    identity; [queues] holds the pending items of each, oldest first.  (The
    field [message_queue] that [__init__] also creates is never used.) *)
Record SSETransport : Type := {
  queues : gmap loc (list string);
  connected_clients : gset loc
}.

(** The transport with the record of [remove_client] calls. *)
Record SseState : Type := {
  sse_transport : SSETransport;
  removed : list loc
}.

Definition add_client (t : SSETransport) : loc * SSETransport :=
  let client_queue := fresh (dom (queues t)) in
  (client_queue,
   {| queues := <[client_queue := []]> (queues t);
      connected_clients := {[client_queue]} ∪ connected_clients t |}).

(** [self.connected_clients.discard(client_queue)] *)
Definition remove_client (client_queue : loc) (t : SSETransport) : SSETransport :=
  {| queues := queues t;
     connected_clients := connected_clients t ∖ {[client_queue]} |}.

(** [await client_queue.put(message_str)] on an unbounded queue. *)
Definition put (message_str : string) (items : list string) : list string :=
  items ++ [message_str].

(** The suspension points of the generator [event_stream], each with the
    queue it registered; [Created] before the body has started, [Finished]
    once the [finally] block has run. *)
Inductive generator : Type :=
  | Created
  | AtYieldInit (client_queue : loc)
  | AtWait (client_queue : loc)
  | AtYieldMessage (client_queue : loc)
  | AtYieldHeartbeat (client_queue : loc)
  | AtYieldError (client_queue : loc)
  | AtYieldStreamError (client_queue : loc)
  | Finished.

(** How a suspended generator is resumed.  At a [yield]: the consumer asks
    for the next item, an [Exception] is thrown in, or the generator is
    closed ([GeneratorExit]).  At the [await]: the queue delivers an item,
    [wait_for] times out after [elapsed] with [time.time()] then reading
    [now], the wait raises an [Exception] other than the timeout, or the
    task is cancelled ([CancelledError], which [except Exception] does not
    catch). *)
Inductive resume : Type :=
  | Next
  | Throw (e : exn)
  | Close
  | Item
  | Timeout (elapsed now : Q).

Inductive event : Type :=
  | Resume (r : resume)
  | Broadcast (message : json).

(** What the generator yields, before serialisation. *)
Inductive frame : Type :=
  | Handshake (capabilities : json)
  | Forwarded (message : string)
  | Heartbeat (timestamp : Q)
  | LoopError (e : exn)
  | StreamError (e : exn).




(** The [timeout] argument of [asyncio.wait_for]. *)
Definition heartbeat_timeout : Q := 30.


Record Connection : Type := {
  frames : list frame;
  gen : generator;
  sse : SseState
}.

(** ** Interleaved tool calls *)

(** The swap of lines 363-385 at the grain of the event loop: a task runs
    from one suspension point to the next without interruption, and tasks
    of different requests alternate at those points.  The handler is
    summarised by the number of [await]s at which it suspends; each time it
    runs it finds the two module-level names bound to whatever was assigned
    last. *)
Module Interleaving.

Record Globals : Type := {
  jira_client : loc;
  confluence_client : loc
}.

Inductive task : Type :=
  | Pending (temp_jira_client temp_confluence_client : option loc) (awaits : nat)
  | Suspended (original_jira original_confluence : loc) (awaits_left : nat)
  | Completed.

(** Task number and the clients it found bound while its handler ran. *)
Definition observation : Type := nat * (loc * loc).

Record System : Type := {
  globals : Globals;
  tasks : list task;
  observed : list observation
}.

Definition install (temp_jira_client temp_confluence_client : option loc)
    (g : Globals) : Globals :=
  {| jira_client := default (jira_client g) temp_jira_client;
     confluence_client := default (confluence_client g) temp_confluence_client |}.

Definition bound (g : Globals) : loc * loc :=
  (jira_client g, confluence_client g).

(** One uninterrupted stretch of task [i]. *)
Definition task_step (i : nat) (t : task) (g : Globals)
    : task * Globals * list observation :=
  match t with
  | Pending temp_jira_client temp_confluence_client awaits =>
      let original_jira := jira_client g in
      let original_confluence := confluence_client g in
      let g1 := install temp_jira_client temp_confluence_client g in
      match awaits with
      | O => (Completed,
              {| jira_client := original_jira;
                 confluence_client := original_confluence |},
              [(i, bound g1)])
      | S n => (Suspended original_jira original_confluence n, g1, [(i, bound g1)])
      end
  | Suspended original_jira original_confluence awaits_left =>
      match awaits_left with
      | O => (Completed,
              {| jira_client := original_jira;
                 confluence_client := original_confluence |},
              [(i, bound g)])
      | S n => (Suspended original_jira original_confluence n, g, [(i, bound g)])
      end
  | Completed => (Completed, g, [])
  end.

Definition step (i : nat) (s : System) : System :=
  match tasks s !! i with
  | Some t =>
      match task_step i t (globals s) with
      | (t', g', obs) =>
          {| globals := g';
             tasks := <[i := t']> (tasks s);
             observed := observed s ++ obs |}
      end
  | None => s
  end.

(** The event loop running the tasks in the order [schedule] lists them. *)
Definition run (schedule : list nat) (s : System) : System :=
  foldl (λ s i, step i s) s schedule.

Definition observations_of (i : nat) (s : System) : list (loc * loc) :=
  snd <$> filter (λ o, o.1 = i) (observed s).

End Interleaving.

(** ** The RPC request processor *)

(** How [server.get_capabilities] is called: with both options in the
    [initialize] branch, with no argument when the SSE handshake is built. *)
Inductive capability_args : Type :=
  | WithOptions
  | NoArguments.

(** [temp_jira_client or jira_client] *)
Definition active_client (dflt : loc) (temp : option loc) : loc :=
  default dflt temp.

(** ** A concrete deployment

    Default clients at locations 1 and 2 with their configurations at 3 and
    4, and handlers that answer without touching the store. *)

Definition default_jira_config : ServiceConfig :=
  {| url := "https://jira.example.org";
     credential := UsernameApiToken "bot@example.org" "jira-api-token";
     ssl_verify := true |}.

Definition default_confluence_config : ServiceConfig :=
  {| url := "https://wiki.example.org";
     credential := PersonalToken "wiki-token";
     ssl_verify := false |}.

Definition sample_heap : gmap loc object :=
  <[1%positive := Client Jira 3%positive]>
    (<[2%positive := Client Confluence 4%positive]>
       (<[3%positive := Config Jira default_jira_config]>
          (<[4%positive := Config Confluence default_confluence_config]> ∅))).

Definition sample_world : World :=
  {| store := {| heap := sample_heap;
                 server_jira_client := 1%positive;
                 server_confluence_client := 2%positive |};
     calls := [] |}.

Definition sample_capabilities (args : capability_args) : outcome json :=
  match args with
  | WithOptions => Ok (JObj [("tools", JObj [])])
  | NoArguments =>
      Raised (Exn "TypeError"
                  "get_capabilities() missing 2 required positional arguments")
  end.

Definition ready_capabilities (args : capability_args) : outcome json :=
  Ok (JObj [("tools", JObj [])]).

Definition sample_list_tools (s : Store) : outcome (list Tool) * Store :=
  (Ok [{| tool_name := "get-issue";
          tool_description := Some "Fetch one issue";
          tool_inputSchema := JObj [("type", JStr "object")] |}], s).

Definition sample_call_tool (name arguments : json) (s : Store) : outcome json * Store :=
  (Ok (JArr [JObj [("type", JStr "text"); ("text", JStr "done")]]), s).

Definition failing_call_tool (name arguments : json) (s : Store) : outcome json * Store :=
  (Raised (Exn "RuntimeError" "upstream returned 401"), s).

Definition sample_list_resources (s : Store) : outcome (list Resource) * Store :=
  (Ok [], s).

Definition sample_repr (v : json) : string := "<value>".

Definition sample_dumps (v : json) : string :=
  match v with
  | JStr s => s
  | _ => "{}"
  end.

Definition sample_transport : SSETransport :=
  {| queues := ∅; connected_clients := ∅ |}.

Definition sample_sse : SseState :=
  {| sse_transport := sample_transport; removed := [] |}.

(** A stream's life after its first resumption: two broadcasts, both
    delivered, an idle wait of 30 that expires, then the wait raising. *)
Definition sample_events : list event :=
  [Broadcast (JStr "first");
   Broadcast (JStr "second");
   Resume Next;
   Resume Item;
   Resume Next;
   Resume Item;
   Resume Next;
   Resume (Timeout 30 1762214400);
   Resume Next;
   Resume (Throw (Exn "RuntimeError" "queue closed"));
   Resume Next].

Definition fresh_connection : Connection :=
  {| frames := []; gen := Created; sse := sample_sse |}.

Definition tools_call_request : json :=
  JObj [("jsonrpc", JStr "2.0");
        ("id", JInt 7);
        ("method", JStr "tools/call");
        ("params", JObj [("name", JStr "get-issue");
                         ("arguments", JObj [("key", JStr "PROJ-1")])])].

(** ** Calls on the transport *)

(** A call of one of the three methods of [SSETransport]. *)
Inductive transport_op : Type :=
  | Join
  | Leave (client_queue : loc)
  | Send (message : json).

Definition sent (ops : list transport_op) : list json :=
  omap (λ op, match op with Send message => Some message | _ => None end) ops.

(** ** Sessions of the default clients *)

(** A call of [get_session] or [close] on a client. *)
Inductive client_op : Type :=
  | GetSession (client : loc)
  | CloseClient (client : loc).

(** The store with the record of session calls and the lines logged, each
    with its level. *)
Record Runtime : Type := {
  runtime_store : Store;
  client_ops : list client_op;
  log_lines : list (string * string)
}.

Definition logger (level message : string) (rt : Runtime) : Runtime :=
  {| runtime_store := runtime_store rt;
     client_ops := client_ops rt;
     log_lines := log_lines rt ++ [(level, message)] |}.

(** [await client.method()] *)
Definition call_client (op : loc → client_op)
    (method : loc → Store → outcome unit * Store) (client : loc) (rt : Runtime)
    : outcome unit * Runtime :=
  match method client (runtime_store rt) with
  | (r, s') =>
      (r, {| runtime_store := s';
             client_ops := client_ops rt ++ [op client];
             log_lines := log_lines rt |})
  end.

(** ** The client of [sse_client.py] *)

Definition raise_exn {A} (e : exn) : M A := λ w, (Raised e, w).

(** [key in v] *)
Definition py_contains (key : string) (v : json) : outcome bool :=
  match v with
  | JObj fields => Ok (bool_decide (is_Some (dict_get fields key)))
  | JArr items => Ok (existsb (λ item, str_eq item key) items)
  | JStr s => Ok (bool_decide (is_Some (String.index 0 key s)))
  | _ => Raised (Exn "TypeError"
                     ("argument of type '" +:+ type_name v +:+ "' is not iterable"))
  end.

(** [v[key]] for a string key *)
Definition py_getitem (v : json) (key : string) : outcome json :=
  match v with
  | JObj fields =>
      match dict_get fields key with
      | Some x => Ok x
      | None => Raised (Exn "KeyError" ("'" +:+ key +:+ "'"))
      end
  | JArr _ => Raised (Exn "TypeError" "list indices must be integers or slices, not str")
  | JStr _ => Raised (Exn "TypeError" "string indices must be integers, not 'str'")
  | _ => Raised (Exn "TypeError" ("'" +:+ type_name v +:+ "' object is not subscriptable"))
  end.

(** Lines 32-45 of [connect]: the authentication headers. *)
Definition connect_headers (jira_token confluence_token : option string)
    : list (string * string) :=
  if truthy jira_token && truthy confluence_token then
    if bool_decide (jira_token = confluence_token) then
      [("Authorization", "Bearer " +:+ default "" jira_token)]
    else
      [("X-Jira-Token", default "" jira_token);
       ("X-Confluence-Token", default "" confluence_token)]
  else if truthy jira_token then
    [("Authorization", "Bearer " +:+ default "" jira_token)]
  else if truthy confluence_token then
    [("Authorization", "Bearer " +:+ default "" confluence_token)]
  else [].

Definition lower_ascii (c : ascii) : ascii :=
  let n := nat_of_ascii c in
  if (65 <=? n)%nat && (n <=? 90)%nat then ascii_of_nat (n + 32) else c.

Fixpoint lower (s : string) : string :=
  match s with
  | EmptyString => EmptyString
  | String c rest => String (lower_ascii c) (lower rest)
  end.

(** The headers as the application receives them: the names the client set,
    in lower case, and whatever else the HTTP client adds. *)
Definition received (hs others : list (string * string)) : list (string * string) :=
  ((λ kv, (lower kv.1, kv.2)) <$> hs) ++ others.

(** ** The launchers *)

(** [os.environ] *)
Definition environ : Type := gmap string string.

(** [os.getenv(var)] *)
Definition getenv (env : environ) (var : string) : option string := env !! var.

(** [f"{b}"] for a [bool] *)
Definition format_bool (b : bool) : string := if b then "True" else "False".

(** How a blocking call that runs the server comes back: it returns,
    [KeyboardInterrupt] is raised (not an [Exception]), or an [Exception]. *)
Inductive served : Type :=
  | Returned
  | Interrupted
  | Failed (e : exn).

(** [run_sse.py] *)
Module run_sse.

Record Args : Type := {
  host : string;
  port : Z;
  log_level : string;
  reload : bool;
  workers : Z
}.

(** The keyword arguments of [uvicorn.run]; the application is always
    ["mcp_jira_confluence.sse_server:app"]. *)
Record uvicorn_args : Type := {
  run_host : string;
  run_port : Z;
  run_log_level : string;
  run_reload : bool;
  run_workers : Z;
  run_access_log : bool;
  run_loop : string
}.

Definition required_env_vars : list string :=
  ["JIRA_URL"; "JIRA_EMAIL"; "JIRA_API_TOKEN";
   "CONFLUENCE_URL"; "CONFLUENCE_EMAIL"; "CONFLUENCE_API_TOKEN"].

(** [[var for var in required_env_vars if not os.getenv(var)]] *)
Definition missing_vars (env : environ) : list string :=
  List.filter (λ var, negb (truthy (getenv env var))) required_env_vars.

(** [main], after the arguments are parsed: the value returned ([None]
    when [uvicorn.run] returns), the lines logged and the calls of
    [uvicorn.run]. *)
Definition main (uvicorn_run : uvicorn_args → served) (args : Args) (env : environ)
    : option Z * list (string * string) * list uvicorn_args :=
  match missing_vars env with
  | _ :: _ =>
      (Some 1%Z,
       [("ERROR", "Missing required environment variables: "
                  +:+ String.concat ", " (missing_vars env));
        ("ERROR", "Please set all required environment variables before starting the server.")],
       [])
  | [] =>
      let started :=
        [("INFO", "Starting SSE server on " +:+ host args +:+ ":" +:+ pretty (port args));
         ("INFO", "Log level: " +:+ log_level args);
         ("INFO", "Reload mode: " +:+ format_bool (reload args));
         ("INFO", "Workers: " +:+ pretty (workers args))] in
      let call :=
        {| run_host := host args;
           run_port := port args;
           run_log_level := log_level args;
           run_reload := reload args;
           run_workers := if negb (reload args) then workers args else 1%Z;
           run_access_log := true;
           run_loop := "asyncio" |} in
      match uvicorn_run call with
      | Returned => (None, started, [call])
      | Interrupted => (Some 0%Z, started ++ [("INFO", "Server stopped by user")], [call])
      | Failed e =>
          (Some 1%Z, started ++ [("ERROR", "Failed to start server: " +:+ str_exn e)],
           [call])
      end
  end.

End run_sse.

(** [start_sse.py] *)
Module start_sse.

Definition RED : string := String "027" "[0;31m".
Definition BLUE : string := String "027" "[0;34m".
Definition NC : string := String "027" "[0m".

(** The line [print_colored] prints. *)
Definition colored (message color : string) : string := color +:+ message +:+ NC.
Definition info_line (message : string) : string := colored ("[INFO] " +:+ message) BLUE.
Definition error_line (message : string) : string := colored ("[ERROR] " +:+ message) RED.

Definition missing_vars (env : environ) : list string :=
  (if negb (truthy (getenv env "JIRA_URL")) then ["JIRA_URL"] else [])
  ++ (if negb (truthy (getenv env "JIRA_PERSONAL_TOKEN"))
         && (negb (truthy (getenv env "JIRA_USERNAME"))
             || negb (truthy (getenv env "JIRA_API_TOKEN")))
      then ["JIRA_PERSONAL_TOKEN or (JIRA_USERNAME and JIRA_API_TOKEN)"] else [])
  ++ (if negb (truthy (getenv env "CONFLUENCE_URL")) then ["CONFLUENCE_URL"] else [])
  ++ (if negb (truthy (getenv env "CONFLUENCE_PERSONAL_TOKEN"))
         && (negb (truthy (getenv env "CONFLUENCE_USERNAME"))
             || negb (truthy (getenv env "CONFLUENCE_API_TOKEN")))
      then ["CONFLUENCE_PERSONAL_TOKEN or (CONFLUENCE_USERNAME and CONFLUENCE_API_TOKEN)"]
      else []).

(** [check_env_vars]: the value returned and the lines printed. *)
Definition check_env_vars (env : environ) : bool * list string :=
  match missing_vars env with
  | _ :: _ =>
      (false,
       [error_line "Missing required environment variables:"]
       ++ ((λ var, "  - " +:+ var) <$> missing_vars env)
       ++ [""; info_line "Please set the environment variables or create a .env file";
           info_line "See .env.example for reference"])
  | [] => (true, [])
  end.

End start_sse.

(** An environment with the six variables of [run_sse.py] and the user names
    that [start_sse.py] asks for, and the arguments [--reload --workers 4]. *)
Definition sample_environ : environ :=
  list_to_map [("JIRA_URL", "https://jira.example.com");
               ("JIRA_EMAIL", "alice@example.com");
               ("JIRA_USERNAME", "alice@example.com");
               ("JIRA_API_TOKEN", "jira-secret");
               ("CONFLUENCE_URL", "https://wiki.example.com");
               ("CONFLUENCE_EMAIL", "alice@example.com");
               ("CONFLUENCE_USERNAME", "alice@example.com");
               ("CONFLUENCE_API_TOKEN", "wiki-secret")].

Definition sample_args : run_sse.Args :=
  {| run_sse.host := "0.0.0.0";
     run_sse.port := 8000;
     run_sse.log_level := "info";
     run_sse.reload := true;
     run_sse.workers := 4 |}.

Section Server.

Set Default Proof Using "Type".

(** The names [sse_server.py] imports: the two default clients, and from
    [server.py] the MCP server's capabilities and the three handlers.  The
    handlers run on the store and may raise; [get_capabilities] stands for
    [server.get_capabilities(...).model_dump()]. *)
Variable jira_client confluence_client : loc.
Variable get_capabilities : capability_args → outcome json.
Variable handle_list_tools : Store → outcome (list Tool) * Store.
Variable handle_call_tool : json → json → Store → outcome json * Store.
Variable handle_list_resources : Store → outcome (list Resource) * Store.

(** [repr] of a number or a container, as an f-string renders it. *)
Variable py_repr : json → string.

(** [f"{v}"] *)
Definition format_value (v : json) : string :=
  match v with
  | JStr s => s
  | JNull => "None"
  | JBool true => "True"
  | JBool false => "False"
  | _ => py_repr v
  end.

(** Entering a handler of [server_module]: it runs on the current store. *)
Definition dispatch {A} (entry : loc → loc → dispatch_call)
    (handler : Store → outcome A * Store) : M A :=
  λ w, let s := store w in
       match handler s with
       | (r, s') =>
           (r, {| store := s';
                  calls := calls w ++ [entry (server_jira_client s)
                                             (server_confluence_client s)] |})
       end.

Definition client_url (client : loc) : M string :=
  cfg ← client_config client; mret (url cfg).

Definition client_ssl_verify (client : loc) : M bool :=
  cfg ← client_config client; mret (ssl_verify cfg).

(** Lines 281-289. *)
Definition make_temp_jira_client (jira_token : option string) : M (option loc) :=
  match jira_token with
  | Some token =>
      if truthy jira_token then
        u ← client_url jira_client;
        v ← client_ssl_verify jira_client;
        temp_jira_config ← JiraConfig u token v;
        temp_jira_client ← JiraClient temp_jira_config;
        mret (Some temp_jira_client)
      else mret None
  | None => mret None
  end.

(** Lines 291-299. *)
Definition make_temp_confluence_client (confluence_token : option string) : M (option loc) :=
  match confluence_token with
  | Some token =>
      if truthy confluence_token then
        u ← client_url confluence_client;
        v ← client_ssl_verify confluence_client;
        temp_confluence_config ← ConfluenceConfig u token v;
        temp_confluence_client ← ConfluenceClient temp_confluence_config;
        mret (Some temp_confluence_client)
      else mret None
  | None => mret None
  end.

(** Lines 277-299: the credential resolution step. *)
Definition make_temp_clients (jira_token confluence_token : option string)
    : M (option loc * option loc) :=
  temp_jira_client ← make_temp_jira_client jira_token;
  temp_confluence_client ← make_temp_confluence_client confluence_token;
  mret (temp_jira_client, temp_confluence_client).

(** [if temp_client: server_module.client = temp_client] *)
Definition install (temp : option loc) (set : loc → M unit) : M unit :=
  match temp with
  | Some c => set c
  | None => mret ()
  end.

Definition restore (original_jira original_confluence : loc) : M unit :=
  set_server_jira_client original_jira;;
  set_server_confluence_client original_confluence.

Definition internal_error (request_id : json) (data : string) : json :=
  error_envelope request_id (-32603) "Internal error" (Some data).

Definition process_mcp_request (request_data : json)
    (jira_token confluence_token : option string) : M json :=
  try_except
    (method ← lift (py_get request_data "method" JNull);
     params ← lift (py_get request_data "params" (JObj []));
     request_id ← lift (py_get request_data "id" JNull);
     temps ← make_temp_clients jira_token confluence_token;
     let temp_jira_client := temps.1 in
     let temp_confluence_client := temps.2 in
     let active_jira_client := active_client jira_client temp_jira_client in
     let active_confluence_client := active_client confluence_client temp_confluence_client in
     if str_eq method "initialize" then
       capabilities ← lift (get_capabilities WithOptions);
       mret (result_envelope request_id
               (JObj [("protocolVersion", JStr "2024-11-05");
                      ("capabilities", capabilities);
                      ("serverInfo", server_info)]))
     else if str_eq method "tools/list" then
       try_except
         (tool_list ← dispatch ListTools handle_list_tools;
          mret (result_envelope request_id
                  (JObj [("tools", JArr (tool_entry <$> tool_list))])))
         (λ e, mret (internal_error request_id
                       ("Failed to get tools: " +:+ str_exn e)))
     else if str_eq method "tools/call" then
       tool_name ← lift (py_get params "name" JNull);
       arguments ← lift (py_get params "arguments" (JObj []));
       try_except
         (original_jira ← get_server_jira_client;
          original_confluence ← get_server_confluence_client;
          install temp_jira_client set_server_jira_client;;
          install temp_confluence_client set_server_confluence_client;;
          try_finally
            (result ← dispatch (CallTool tool_name arguments)
                               (handle_call_tool tool_name arguments);
             mret (result_envelope request_id (JObj [("content", result)])))
            (restore original_jira original_confluence))
         (λ e, mret (internal_error request_id
                       ("Tool execution failed: " +:+ str_exn e)))
     else if str_eq method "resources/list" then
       try_except
         (original_jira ← get_server_jira_client;
          original_confluence ← get_server_confluence_client;
          install temp_jira_client set_server_jira_client;;
          install temp_confluence_client set_server_confluence_client;;
          try_finally
            (resource_list ← dispatch ListResources handle_list_resources;
             mret (result_envelope request_id
                     (JObj [("resources", JArr (resource_entry <$> resource_list))])))
            (restore original_jira original_confluence))
         (λ e, mret (internal_error request_id
                       ("Failed to get resources: " +:+ str_exn e)))
     else
       mret (error_envelope request_id (-32601)
               ("Method not found: " +:+ format_value method) None))
    (λ e, request_id ← lift (py_get request_data "id" JNull);
          mret (internal_error request_id (str_exn e))).

(** [POST /mcp].  When [request.json()] raises, [request_data] is not bound
    and the handler answers with a null id; once it is bound the handler
    evaluates [request_data.get("id")]. *)
Definition mcp_endpoint (request : Request) : M json :=
  match request_json request with
  | Raised e => mret (internal_error JNull (str_exn e))
  | Ok request_data =>
      try_except
        (let tokens := request_tokens (headers request) in
         process_mcp_request request_data tokens.1 tokens.2)
        (λ e, request_id ← lift (py_get request_data "id" JNull);
              mret (internal_error request_id (str_exn e)))
  end.


(** ** The SSE endpoint *)

Variable json_dumps : json → string.



(** [SSETransport.send_message]: the message is serialised once and put on
    the queue of every connected client. *)
Definition send_message (message : json) (t : SSETransport) : SSETransport :=
  let message_str := json_dumps message in
  {| queues := map_imap (λ client_queue items,
                  Some (if decide (client_queue ∈ connected_clients t)
                        then put message_str items else items))
                 (queues t);
     connected_clients := connected_clients t |}.

Definition pending (client_queue : loc) (st : SseState) : list string :=
  default [] (queues (sse_transport st) !! client_queue).

Definition set_pending (client_queue : loc) (items : list string) (st : SseState) : SseState :=
  {| sse_transport := {| queues := <[client_queue := items]> (queues (sse_transport st));
                         connected_clients := connected_clients (sse_transport st) |};
     removed := removed st |}.

(** The [finally] block of [event_stream]. *)
Definition cleanup (client_queue : loc) (st : SseState) : SseState :=
  {| sse_transport := remove_client client_queue (sse_transport st);
     removed := removed st ++ [client_queue] |}.

(** One resumption of [event_stream], up to its next suspension point or its
    end: the frame it yields (if it yields), where it is suspended next, and
    the transport.  [None] when the resumption cannot happen where the
    generator is suspended. *)
Definition event_stream_step (r : resume) (g : generator) (st : SseState)
    : option (option frame * generator * SseState) :=
  match g with
  | Created =>
      match r with
      | Next =>
          let '(client_queue, t) := add_client (sse_transport st) in
          let st1 := {| sse_transport := t; removed := removed st |} in
          match get_capabilities NoArguments with
          | Ok capabilities =>
              Some (Some (Handshake capabilities), AtYieldInit client_queue, st1)
          | Raised e =>
              Some (Some (StreamError e), AtYieldStreamError client_queue, st1)
          end
      | Throw _ | Close => Some (None, Finished, st)
      | _ => None
      end
  | AtYieldInit q =>
      match r with
      | Next => Some (None, AtWait q, st)
      | Throw e => Some (Some (StreamError e), AtYieldStreamError q, st)
      | Close => Some (None, Finished, cleanup q st)
      | _ => None
      end
  | AtWait q =>
      match r with
      | Item =>
          match pending q st with
          | message :: rest =>
              Some (Some (Forwarded message), AtYieldMessage q, set_pending q rest st)
          | [] => None
          end
      | Timeout elapsed now =>
          match pending q st with
          | [] =>
              if Qle_bool heartbeat_timeout elapsed
              then Some (Some (Heartbeat now), AtYieldHeartbeat q, st)
              else None
          | _ :: _ => None
          end
      | Throw e => Some (Some (LoopError e), AtYieldError q, st)
      | Close => Some (None, Finished, cleanup q st)
      | Next => None
      end
  | AtYieldMessage q =>
      match r with
      | Next => Some (None, AtWait q, st)
      | Throw e => Some (Some (LoopError e), AtYieldError q, st)
      | Close => Some (None, Finished, cleanup q st)
      | _ => None
      end
  | AtYieldHeartbeat q =>
      match r with
      | Next => Some (None, AtWait q, st)
      | Throw e => Some (Some (StreamError e), AtYieldStreamError q, st)
      | Close => Some (None, Finished, cleanup q st)
      | _ => None
      end
  | AtYieldError q =>
      match r with
      | Next => Some (None, Finished, cleanup q st)
      | Throw e => Some (Some (StreamError e), AtYieldStreamError q, st)
      | Close => Some (None, Finished, cleanup q st)
      | _ => None
      end
  | AtYieldStreamError q =>
      match r with
      | Next | Throw _ | Close => Some (None, Finished, cleanup q st)
      | _ => None
      end
  | Finished => None
  end.

Definition emit (f : option frame) (fs : list frame) : list frame :=
  match f with
  | Some x => fs ++ [x]
  | None => fs
  end.

Definition step (ev : event) (c : Connection) : option Connection :=
  match ev with
  | Resume r =>
      match event_stream_step r (gen c) (sse c) with
      | Some (f, g, st) => Some {| frames := emit f (frames c); gen := g; sse := st |}
      | None => None
      end
  | Broadcast message =>
      Some {| frames := frames c;
              gen := gen c;
              sse := {| sse_transport := send_message message (sse_transport (sse c));
                        removed := removed (sse c) |} |}
  end.

Fixpoint run (evs : list event) (c : Connection) : option Connection :=
  match evs with
  | [] => Some c
  | ev :: rest =>
      match step ev c with
      | Some c' => run rest c'
      | None => None
      end
  end.

(** Lines 153-167: the per-connection configurations. *)
Definition make_temp_jira_config (jira_token : option string) : M (option loc) :=
  match jira_token with
  | Some token =>
      if truthy jira_token then
        u ← client_url jira_client;
        v ← client_ssl_verify jira_client;
        temp_jira_config ← JiraConfig u token v;
        mret (Some temp_jira_config)
      else mret None
  | None => mret None
  end.

Definition make_temp_confluence_config (confluence_token : option string) : M (option loc) :=
  match confluence_token with
  | Some token =>
      if truthy confluence_token then
        u ← client_url confluence_client;
        v ← client_ssl_verify confluence_client;
        temp_confluence_config ← ConfluenceConfig u token v;
        mret (Some temp_confluence_config)
      else mret None
  | None => mret None
  end.

(** [POST /sse]: the configurations are built, then the response is handed
    the generator, which has not started yet. *)
Definition sse_endpoint (request : Request) : M generator :=
  let tokens := request_tokens (headers request) in
  temp_jira_config ← make_temp_jira_config tokens.1;
  temp_confluence_config ← make_temp_confluence_config tokens.2;
  mret Created.

(** A connection: the endpoint, then the stream driven by [evs]. *)
Definition sse_connection (request : Request) (evs : list event)
    (w : World) (st : SseState) : outcome (option Connection) * World :=
  match sse_endpoint request w with
  | (Ok g, w') => (Ok (run evs {| frames := []; gen := g; sse := st |}), w')
  | (Raised e, w') => (Raised e, w')
  end.

(** ** Sequences of calls on the transport *)

Definition apply_op (t : SSETransport) (op : transport_op) : SSETransport :=
  match op with
  | Join => (add_client t).2
  | Leave client_queue => remove_client client_queue t
  | Send message => send_message message t
  end.

Definition apply_ops (ops : list transport_op) (t : SSETransport) : SSETransport :=
  foldl apply_op t ops.

(** ** Health and lifespan *)

(** The session methods of the upstream clients, [await client.get_session()]
    and [await client.close()], on the client they are called on. *)
Variable get_session : loc → Store → outcome unit * Store.
Variable close : loc → Store → outcome unit * Store.

(** Lines 93-97 and 99-103: one probe of [health_check]. *)
Definition probe (client : loc) (rt : Runtime) : string * Runtime :=
  match call_client GetSession get_session client rt with
  | (Ok _, rt') => ("ok", rt')
  | (Raised e, rt') => ("error: " +:+ str_exn e, rt')
  end.

(** [GET /health], at time [now].  Between the probes and the [return]
    nothing raises, so the outer handler has nothing to turn into a 500. *)
Definition health_check (now : Q) (t : SSETransport) (rt : Runtime) : json * Runtime :=
  let '(jira_status, rt1) := probe jira_client rt in
  let '(confluence_status, rt2) := probe confluence_client rt1 in
  (JObj [("status", JStr "ok");
         ("timestamp", JFloat now);
         ("services", JObj [("jira", JStr jira_status);
                            ("confluence", JStr confluence_status)]);
         ("connected_clients", JInt (Z.of_nat (size (connected_clients t))))],
   rt2).

(** [lifespan] up to its [yield]. *)
Definition startup (rt : Runtime) : Runtime :=
  let rt0 := logger "INFO" "Starting SSE server..." rt in
  let rt1 :=
    match call_client GetSession get_session jira_client rt0 with
    | (Ok _, rt') => logger "INFO" "Jira client initialized successfully" rt'
    | (Raised e, rt') =>
        logger "WARNING" ("Failed to initialize Jira client: " +:+ str_exn e) rt'
    end in
  let rt2 :=
    match call_client GetSession get_session confluence_client rt1 with
    | (Ok _, rt') => logger "INFO" "Confluence client initialized successfully" rt'
    | (Raised e, rt') =>
        logger "WARNING" ("Failed to initialize Confluence client: " +:+ str_exn e) rt'
    end in
  logger "INFO" "SSE server startup complete" rt2.

(** [lifespan] after its [yield]: both [close] calls stand in one [try]. *)
Definition shutdown (rt : Runtime) : Runtime :=
  let rt0 := logger "INFO" "Shutting down SSE server..." rt in
  match call_client CloseClient close jira_client rt0 with
  | (Ok _, rt1) =>
      match call_client CloseClient close confluence_client rt1 with
      | (Ok _, rt2) => logger "INFO" "SSE server shut down successfully" rt2
      | (Raised e, rt2) =>
          logger "ERROR" ("Error during shutdown: " +:+ str_exn e) rt2
      end
  | (Raised e, rt1) => logger "ERROR" ("Error during shutdown: " +:+ str_exn e) rt1
  end.

(** ** The client's requests *)

(** Lines 73-77, 95-98 and 113-116 of [sse_client.py]:
    [if "error" in result: raise Exception(f"<label>{result['error']}")],
    then [return result["result"]]. *)
Definition result_of (label : string) (result : json) : M json :=
  has_error ← lift (py_contains "error" result);
  if has_error : bool then
    error ← lift (py_getitem result "error");
    raise_exn (Exn "Exception" (label +:+ format_value error))
  else
    lift (py_getitem result "result").

(** [post request] stands for [self.client.post(f"{self.server_url}/mcp",
    json=request)] followed by [response.raise_for_status()] and
    [response.json()]. *)
Definition initialize (post : json → M json) : M json :=
  let init_request :=
    JObj [("jsonrpc", JStr "2.0");
          ("id", JInt 1);
          ("method", JStr "initialize");
          ("params",
           JObj [("protocolVersion", JStr "2024-11-05");
                 ("capabilities", JObj []);
                 ("clientInfo", JObj [("name", JStr "sse-mcp-client");
                                      ("version", JStr "1.0.0")])])] in
  result ← post init_request;
  result_of "Initialization failed: " result.

Definition call_tool (post : json → M json) (tool_name : string) (arguments : json)
    : M json :=
  let request :=
    JObj [("jsonrpc", JStr "2.0");
          ("id", JInt 2);
          ("method", JStr "tools/call");
          ("params", JObj [("name", JStr tool_name); ("arguments", arguments)])] in
  result ← post request;
  result_of "Tool call failed: " result.

Definition list_tools (post : json → M json) : M json :=
  let request :=
    JObj [("jsonrpc", JStr "2.0");
          ("id", JInt 3);
          ("method", JStr "tools/list");
          ("params", JObj [])] in
  result ← post request;
  result_of "List tools failed: " result.

(** The transport [post] reaches this application's [POST /mcp] under the
    headers [hs] and hands back the envelope the endpoint returns. *)
Definition served_by (hs : list (string * string)) (post : json → M json) : Prop :=
  ∀ request w envelope w',
    mcp_endpoint {| headers := hs; request_json := Ok request |} w = (Ok envelope, w') →
    post request w = (Ok envelope, w').

(** The outcome of a client request: a value, or the client's own
    [Exception] whose text is [label] followed by an error object. *)
Definition result_or_error (label : string) (r : outcome json) : Prop :=
  match r with
  | Ok _ => True
  | Raised e => ∃ error, e = Exn "Exception" (label +:+ py_repr (JObj error))
  end.

(** The transport that hands each request straight to the endpoint. *)
Definition direct_post (hs : list (string * string)) (request : json) : M json :=
  mcp_endpoint {| headers := hs; request_json := Ok request |}.

(** ** Specification vocabulary *)

(** [client] is a client object whose [config] is a configuration object. *)
Definition configured (client : loc) (w : World) : Prop :=
  ∃ svc c svc' cfg,
    heap (store w) !! client = Some (Client svc c) ∧
    heap (store w) !! c = Some (Config svc' cfg).

(** [w'] differs from [w] by new heap objects only: every object of [w] is
    still there, unchanged; the module-level names and the record of
    dispatcher calls are the same. *)
Definition extends (w w' : World) : Prop :=
  (∀ l o, heap (store w) !! l = Some o → heap (store w') !! l = Some o) ∧
  server_jira_client (store w') = server_jira_client (store w) ∧
  server_confluence_client (store w') = server_confluence_client (store w) ∧
  calls w' = calls w.

(** [c] is a client created between [w] and [w'] whose configuration, also
    new, has the URL and TLS flag of [dflt]'s configuration and [token] as
    credential. *)
Definition override (svc : service) (dflt : loc) (token : string)
    (w w' : World) (c : loc) : Prop :=
  ∃ cl dcfg,
    client_config dflt w = (Ok dcfg, w) ∧
    heap (store w) !! c = None ∧
    heap (store w) !! cl = None ∧
    heap (store w') !! c = Some (Client svc cl) ∧
    heap (store w') !! cl =
      Some (Config svc {| url := url dcfg;
                          credential := PersonalToken token;
                          ssl_verify := ssl_verify dcfg |}).

Definition resolved (svc : service) (dflt : loc) (token : option string)
    (w w' : World) (temp : option loc) : Prop :=
  match temp with
  | Some c => ∃ t, token = Some t ∧ t ≠ "" ∧ override svc dflt t w w' c
  | None => truthy token = false
  end.

(** The override [temp] exists and carries [token]. *)
Definition carries (svc : service) (dflt : loc) (token : string)
    (w w' : World) (temp : option loc) : Prop :=
  ∃ c, temp = Some c ∧ override svc dflt token w w' c.

(** A response envelope for [request_id]: a result or an error. *)
Definition response_for (request_id : json) (envelope : json) : Prop :=
  (∃ result, envelope = result_envelope request_id result) ∨
  (∃ code message data, envelope = error_envelope request_id code message data).

(** The queue a suspended generator has registered. *)
Definition queue_of (g : generator) : option loc :=
  match g with
  | Created | Finished => None
  | AtYieldInit q | AtWait q | AtYieldMessage q | AtYieldHeartbeat q
  | AtYieldError q | AtYieldStreamError q => Some q
  end.








(** Registration state of queue [q] given the removals [r0] recorded before
    the connection: registered and not yet removed while the generator is
    suspended, removed exactly once when it has finished. *)
Definition registration (q : loc) (r0 : list loc) (c : Connection) : Prop :=
  match gen c with
  | Created => False
  | Finished =>
      removed (sse c) = (r0 ++ [q])%list ∧
      q ∉ connected_clients (sse_transport (sse c))
  | g =>
      queue_of g = Some q ∧
      removed (sse c) = r0 ∧
      q ∈ connected_clients (sse_transport (sse c))
  end.


Create HintDb envelope.

(** * Properties *)

(** ** The monad and the heap *)

Lemma bind_ok {A B} (m : M A) (k : A → M B) w a w' :
  m w = (Ok a, w') → (m ≫= k) w = k a w'.
Proof. intros H. unfold mbind, M_bind, bind. by rewrite H. Qed.

Lemma bind_raised {A B} (m : M A) (k : A → M B) w e w' :
  m w = (Raised e, w') → (m ≫= k) w = (Raised e, w').
Proof. intros H. unfold mbind, M_bind, bind. by rewrite H. Qed.

Lemma extends_refl w : extends w w.
Proof. by repeat split. Qed.

Lemma extends_trans w1 w2 w3 : extends w1 w2 → extends w2 w3 → extends w1 w3.
Proof.
  intros (H1 & J1 & C1 & L1) (H2 & J2 & C2 & L2).
  repeat split; [intros l o Hl; auto | congruence ..].
Qed.

Lemma extends_absent w w' l :
  extends w w' → heap (store w') !! l = None → heap (store w) !! l = None.
Proof.
  intros [Hh _] Hn. destruct (heap (store w) !! l) eqn:E; [|done].
  apply Hh in E. congruence.
Qed.

Lemma alloc_spec o w :
  ∃ l w', alloc o w = (Ok l, w') ∧ heap (store w) !! l = None ∧
          heap (store w') = <[l := o]> (heap (store w)) ∧ extends w w'.
Proof.
  eexists _, _. split; [reflexivity|].
  assert (Hf : heap (store w) !! fresh (dom (heap (store w))) = None).
  { apply not_elem_of_dom. apply is_fresh. }
  split; [exact Hf|]. split; [reflexivity|].
  repeat split; simpl.
  intros l o' Hl. rewrite lookup_insert_ne; [done|].
  intros Heq. rewrite <- Heq in Hl. congruence.
Qed.

Lemma client_config_ok client w :
  configured client w → ∃ cfg, client_config client w = (Ok cfg, w).
Proof.
  intros (svc & c & svc' & cfg & H1 & H2). exists cfg.
  unfold client_config. by rewrite H1, H2.
Qed.

Lemma client_config_world client w r w' :
  client_config client w = (r, w') → w' = w.
Proof.
  unfold client_config. intros H.
  repeat case_match; by simplify_eq.
Qed.

Lemma client_config_extends client w w' cfg :
  client_config client w = (Ok cfg, w) → extends w w' →
  client_config client w' = (Ok cfg, w').
Proof.
  unfold client_config. intros H (Hh & _).
  destruct (heap (store w) !! client) as [[|svc c]|] eqn:E1; try done.
  destruct (heap (store w) !! c) as [[svc' cfg'|]|] eqn:E2; try done.
  rewrite (Hh _ _ E1), (Hh _ _ E2). congruence.
Qed.

Lemma configured_extends client w w' :
  configured client w → extends w w' → configured client w'.
Proof.
  intros (svc & c & svc' & cfg & H1 & H2) [Hh _].
  exists svc, c, svc', cfg. auto.
Qed.

Lemma client_url_ok client w cfg :
  client_config client w = (Ok cfg, w) → client_url client w = (Ok (url cfg), w).
Proof. intros H. unfold client_url. by rewrite (bind_ok _ _ _ _ _ H). Qed.

Lemma client_ssl_verify_ok client w cfg :
  client_config client w = (Ok cfg, w) →
  client_ssl_verify client w = (Ok (ssl_verify cfg), w).
Proof. intros H. unfold client_ssl_verify. by rewrite (bind_ok _ _ _ _ _ H). Qed.

Lemma truthy_Some t : truthy (Some t) = true → t ≠ "".
Proof. unfold truthy. intros H ->. simpl in H. discriminate. Qed.

Lemma truthy_nonempty t : t ≠ "" → truthy (Some t) = true.
Proof.
  intros H. unfold truthy. destruct (String.eqb_spec t ""); [done|reflexivity].
Qed.

(** ** The credential resolution step *)

Lemma make_temp_jira_client_spec jira_token w :
  configured jira_client w →
  ∃ temp w', make_temp_jira_client jira_token w = (Ok temp, w') ∧
             extends w w' ∧ resolved Jira jira_client jira_token w w' temp.
Proof.
  intros Hcfg. unfold make_temp_jira_client.
  destruct jira_token as [token|]; [|by exists None, w; split_and!; try apply extends_refl].
  destruct (truthy (Some token)) eqn:Ht;
    [|by exists None, w; split_and!; try apply extends_refl].
  destruct (client_config_ok _ _ Hcfg) as [cfg Hc].
  rewrite (bind_ok _ _ _ _ _ (client_url_ok _ _ _ Hc)).
  rewrite (bind_ok _ _ _ _ _ (client_ssl_verify_ok _ _ _ Hc)).
  unfold JiraConfig, JiraClient.
  destruct (alloc_spec (Config Jira {| url := url cfg; credential := PersonalToken token;
                                       ssl_verify := ssl_verify cfg |}) w)
    as (l1 & w1 & E1 & F1 & H1 & X1).
  rewrite (bind_ok _ _ _ _ _ E1).
  destruct (alloc_spec (Client Jira l1) w1) as (l2 & w2 & E2 & F2 & H2 & X2).
  rewrite (bind_ok _ _ _ _ _ E2).
  exists (Some l2), w2. split; [done|]. split; [by eapply extends_trans|].
  exists token. split; [done|]. split; [by apply truthy_Some|].
  exists l1, cfg. split; [done|].
  split; [by eapply extends_absent|]. split; [done|].
  rewrite H2, H1. split; [by rewrite lookup_insert_eq|].
  rewrite lookup_insert_ne, lookup_insert_eq; [done|].
  intros ->. rewrite H1, lookup_insert_eq in F2. done.
Qed.

Lemma make_temp_confluence_client_spec confluence_token w :
  configured confluence_client w →
  ∃ temp w', make_temp_confluence_client confluence_token w = (Ok temp, w') ∧
             extends w w' ∧
             resolved Confluence confluence_client confluence_token w w' temp.
Proof.
  intros Hcfg. unfold make_temp_confluence_client.
  destruct confluence_token as [token|];
    [|by exists None, w; split_and!; try apply extends_refl].
  destruct (truthy (Some token)) eqn:Ht;
    [|by exists None, w; split_and!; try apply extends_refl].
  destruct (client_config_ok _ _ Hcfg) as [cfg Hc].
  rewrite (bind_ok _ _ _ _ _ (client_url_ok _ _ _ Hc)).
  rewrite (bind_ok _ _ _ _ _ (client_ssl_verify_ok _ _ _ Hc)).
  unfold ConfluenceConfig, ConfluenceClient.
  destruct (alloc_spec (Config Confluence {| url := url cfg;
                                             credential := PersonalToken token;
                                             ssl_verify := ssl_verify cfg |}) w)
    as (l1 & w1 & E1 & F1 & H1 & X1).
  rewrite (bind_ok _ _ _ _ _ E1).
  destruct (alloc_spec (Client Confluence l1) w1) as (l2 & w2 & E2 & F2 & H2 & X2).
  rewrite (bind_ok _ _ _ _ _ E2).
  exists (Some l2), w2. split; [done|]. split; [by eapply extends_trans|].
  exists token. split; [done|]. split; [by apply truthy_Some|].
  exists l1, cfg. split; [done|].
  split; [by eapply extends_absent|]. split; [done|].
  rewrite H2, H1. split; [by rewrite lookup_insert_eq|].
  rewrite lookup_insert_ne, lookup_insert_eq; [done|].
  intros ->. rewrite H1, lookup_insert_eq in F2. done.
Qed.

Lemma resolved_later svc dflt token w w1 w2 temp :
  resolved svc dflt token w w1 temp → extends w1 w2 →
  resolved svc dflt token w w2 temp.
Proof.
  destruct temp as [c|]; [|done].
  intros (t & ? & ? & cl & dcfg & ? & ? & ? & Hc & Hcl) [Hh _].
  exists t. split_and!; [done..|]. exists cl, dcfg. split_and!; auto.
Qed.

Lemma resolved_earlier svc dflt token w w1 w2 temp dcfg :
  client_config dflt w = (Ok dcfg, w) → extends w w1 →
  resolved svc dflt token w1 w2 temp → resolved svc dflt token w w2 temp.
Proof.
  intros Hd Hx. destruct temp as [c|]; [|done].
  intros (t & ? & ? & cl & dcfg' & Hd' & ? & ? & Hc & Hcl).
  pose proof (client_config_extends _ _ _ _ Hd Hx) as Hd1.
  assert (dcfg' = dcfg) as -> by congruence.
  exists t. split_and!; [done..|]. exists cl, dcfg.
  split_and!; eauto using extends_absent.
Qed.

Lemma make_temp_clients_spec jira_token confluence_token w :
  configured jira_client w → configured confluence_client w →
  ∃ temp_jira temp_confluence w',
    make_temp_clients jira_token confluence_token w
      = (Ok (temp_jira, temp_confluence), w') ∧
    extends w w' ∧
    resolved Jira jira_client jira_token w w' temp_jira ∧
    resolved Confluence confluence_client confluence_token w w' temp_confluence.
Proof.
  intros Hj Hc. unfold make_temp_clients.
  destruct (make_temp_jira_client_spec jira_token w Hj) as (tj & w1 & E1 & X1 & R1).
  rewrite (bind_ok _ _ _ _ _ E1).
  destruct (make_temp_confluence_client_spec confluence_token w1
              (configured_extends _ _ _ Hc X1)) as (tc & w2 & E2 & X2 & R2).
  rewrite (bind_ok _ _ _ _ _ E2).
  exists tj, tc, w2. split; [done|]. split; [by eapply extends_trans|].
  split; [by eapply resolved_later|].
  destruct (client_config_ok _ _ Hc) as [ccfg Hcc].
  by eapply resolved_earlier.
Qed.

Ltac monad_unfold :=
  unfold mbind, M_bind, mret, M_ret, bind, ret, lift, try_except, try_finally in *.

Lemma alloc_extends o w r w' : alloc o w = (r, w') → extends w w'.
Proof.
  destruct (alloc_spec o w) as (l & w1 & E & _ & _ & X). rewrite E.
  intros [= _ <-]. exact X.
Qed.

Lemma make_temp_jira_client_any jira_token w r w' :
  make_temp_jira_client jira_token w = (r, w') →
  extends w w' ∧
  match r with
  | Ok (Some _) => truthy jira_token = true
  | Ok None => truthy jira_token = false
  | Raised _ => True
  end.
Proof.
  unfold make_temp_jira_client.
  destruct jira_token as [token|];
    [|intros [= <- <-]; split; [apply extends_refl|done]].
  destruct (truthy (Some token)) eqn:Ht;
    [|intros [= <- <-]; split; [apply extends_refl|done]].
  unfold client_url, client_ssl_verify, JiraConfig, JiraClient. monad_unfold.
  destruct (client_config jira_client w) as [[cfg|e] w0] eqn:Hc;
    pose proof (client_config_world _ _ _ _ Hc) as ->;
    [|intros [= <- <-]; split; [apply extends_refl|done]].
  rewrite Hc.
  destruct (alloc (Config Jira _) w) as [[l1|e1] w1] eqn:E1;
    pose proof (alloc_extends _ _ _ _ E1) as X1;
    [|intros [= <- <-]; done].
  destruct (alloc (Client Jira l1) w1) as [[l2|e2] w2] eqn:E2;
    pose proof (alloc_extends _ _ _ _ E2) as X2;
    intros [= <- <-]; (split; [by eapply extends_trans|done]).
Qed.

Lemma make_temp_confluence_client_any confluence_token w r w' :
  make_temp_confluence_client confluence_token w = (r, w') →
  extends w w' ∧
  match r with
  | Ok (Some _) => truthy confluence_token = true
  | Ok None => truthy confluence_token = false
  | Raised _ => True
  end.
Proof.
  unfold make_temp_confluence_client.
  destruct confluence_token as [token|];
    [|intros [= <- <-]; split; [apply extends_refl|done]].
  destruct (truthy (Some token)) eqn:Ht;
    [|intros [= <- <-]; split; [apply extends_refl|done]].
  unfold client_url, client_ssl_verify, ConfluenceConfig, ConfluenceClient. monad_unfold.
  destruct (client_config confluence_client w) as [[cfg|e] w0] eqn:Hc;
    pose proof (client_config_world _ _ _ _ Hc) as ->;
    [|intros [= <- <-]; split; [apply extends_refl|done]].
  rewrite Hc.
  destruct (alloc (Config Confluence _) w) as [[l1|e1] w1] eqn:E1;
    pose proof (alloc_extends _ _ _ _ E1) as X1;
    [|intros [= <- <-]; done].
  destruct (alloc (Client Confluence l1) w1) as [[l2|e2] w2] eqn:E2;
    pose proof (alloc_extends _ _ _ _ E2) as X2;
    intros [= <- <-]; (split; [by eapply extends_trans|done]).
Qed.

Lemma make_temp_clients_any jira_token confluence_token w r w' :
  make_temp_clients jira_token confluence_token w = (r, w') →
  extends w w' ∧
  match r with
  | Ok (temp_jira, temp_confluence) =>
      (is_Some temp_jira ↔ truthy jira_token = true) ∧
      (is_Some temp_confluence ↔ truthy confluence_token = true)
  | Raised _ => True
  end.
Proof.
  unfold make_temp_clients. monad_unfold.
  destruct (make_temp_jira_client jira_token w) as [[tj|e] w1] eqn:E1;
    destruct (make_temp_jira_client_any _ _ _ _ E1) as [X1 T1];
    [|intros [= <- <-]; done].
  destruct (make_temp_confluence_client confluence_token w1) as [[tc|e] w2] eqn:E2;
    destruct (make_temp_confluence_client_any _ _ _ _ E2) as [X2 T2];
    intros [= <- <-]; (split; [by eapply extends_trans|]); [|done].
  split.
  - destruct tj; [split; [done|by eauto]|]. rewrite T1. split; [by intros [? [=]]|done].
  - destruct tc; [split; [done|by eauto]|]. rewrite T2. split; [by intros [? [=]]|done].
Qed.

Lemma client_config_configured client w cfg w' :
  client_config client w = (Ok cfg, w') → configured client w.
Proof.
  unfold client_config, configured. intros H.
  destruct (heap (store w) !! client) as [[|svc c]|] eqn:E1; try done.
  destruct (heap (store w) !! c) as [[svc' cfg'|]|] eqn:E2; try done.
  by exists svc, c, svc', cfg'.
Qed.

Lemma resolved_config svc dflt token w w' temp dcfg c :
  resolved svc dflt token w w' temp →
  client_config dflt w = (Ok dcfg, w) →
  temp = Some c →
  ∃ t cl,
    token = Some t ∧ t ≠ "" ∧
    heap (store w) !! c = None ∧
    heap (store w) !! cl = None ∧
    heap (store w') !! c = Some (Client svc cl) ∧
    heap (store w') !! cl =
      Some (Config svc {| url := url dcfg;
                          credential := PersonalToken t;
                          ssl_verify := ssl_verify dcfg |}).
Proof.
  intros R Hd ->. destruct R as (t & ? & ? & cl & dcfg' & Hd' & ? & ? & ? & ?).
  assert (dcfg' = dcfg) as -> by congruence.
  by exists t, cl.
Qed.

(** C4 — Credential resolution builds new objects only.  When the default
    clients carry a configuration, the step returns; each override client
    it returns is a new object whose configuration is a new object holding
    the default configuration's [url] and [ssl_verify] and the request's
    token as credential; every object that existed before, the default
    clients and their configurations among them, is unchanged, so reading
    the default configurations afterwards gives the same field values. *)
Theorem resolution_copies_default_and_leaves_it_unchanged
    jira_token confluence_token w jira_cfg confluence_cfg :
  client_config jira_client w = (Ok jira_cfg, w) →
  client_config confluence_client w = (Ok confluence_cfg, w) →
  ∃ temp_jira temp_confluence w',
    make_temp_clients jira_token confluence_token w
      = (Ok (temp_jira, temp_confluence), w') ∧
    (is_Some temp_jira ↔ truthy jira_token = true) ∧
    (is_Some temp_confluence ↔ truthy confluence_token = true) ∧
    (∀ c, temp_jira = Some c →
       ∃ token config,
         jira_token = Some token ∧
         heap (store w) !! c = None ∧
         heap (store w) !! config = None ∧
         heap (store w') !! c = Some (Client Jira config) ∧
         heap (store w') !! config =
           Some (Config Jira {| url := url jira_cfg;
                                credential := PersonalToken token;
                                ssl_verify := ssl_verify jira_cfg |})) ∧
    (∀ c, temp_confluence = Some c →
       ∃ token config,
         confluence_token = Some token ∧
         heap (store w) !! c = None ∧
         heap (store w) !! config = None ∧
         heap (store w') !! c = Some (Client Confluence config) ∧
         heap (store w') !! config =
           Some (Config Confluence {| url := url confluence_cfg;
                                      credential := PersonalToken token;
                                      ssl_verify := ssl_verify confluence_cfg |})) ∧
    (∀ l o, heap (store w) !! l = Some o → heap (store w') !! l = Some o) ∧
    client_config jira_client w' = (Ok jira_cfg, w') ∧
    client_config confluence_client w' = (Ok confluence_cfg, w').
Proof.
  intros Hj Hc.
  destruct (make_temp_clients_spec jira_token confluence_token w
              (client_config_configured _ _ _ _ Hj)
              (client_config_configured _ _ _ _ Hc))
    as (tj & tc & w' & E & X & Rj & Rc).
  exists tj, tc, w'. split; [exact E|].
  destruct (make_temp_clients_any _ _ _ _ _ E) as [_ [Tj Tc]].
  split; [exact Tj|]. split; [exact Tc|].
  split.
  { intros c Hs.
    destruct (resolved_config _ _ _ _ _ _ _ _ Rj Hj Hs) as (t & cl & ? & ? & ? & ? & ? & ?).
    by exists t, cl. }
  split.
  { intros c Hs.
    destruct (resolved_config _ _ _ _ _ _ _ _ Rc Hc Hs) as (t & cl & ? & ? & ? & ? & ? & ?).
    by exists t, cl. }
  split; [by destruct X|].
  split; by eapply client_config_extends.
Qed.

(** ** Swap and restore around a dispatcher call *)

Lemma swap_block_spec {A} (entry : loc → loc → dispatch_call)
    (handler : Store → outcome A * Store) (k : A → json) (on_error : exn → json)
    (temp_jira temp_confluence : option loc) (w : World) :
  ∃ envelope w',
    try_except
      (original_jira ← get_server_jira_client;
       original_confluence ← get_server_confluence_client;
       install temp_jira set_server_jira_client;;
       install temp_confluence set_server_confluence_client;;
       try_finally
         (result ← dispatch entry handler; mret (k result))
         (restore original_jira original_confluence))
      (λ e, mret (on_error e)) w = (Ok envelope, w') ∧
    server_jira_client (store w') = server_jira_client (store w) ∧
    server_confluence_client (store w') = server_confluence_client (store w) ∧
    calls w' = (calls w ++
      [entry (active_client (server_jira_client (store w)) temp_jira)
             (active_client (server_confluence_client (store w)) temp_confluence)])%list ∧
    ((∃ result, envelope = k result) ∨ (∃ e, envelope = on_error e)).
Proof.
  unfold restore, install, dispatch, get_server_jira_client,
    get_server_confluence_client, set_server_jira_client,
    set_server_confluence_client, active_client.
  monad_unfold.
  destruct temp_jira as [tj|], temp_confluence as [tc|]; simpl;
    match goal with
    | |- context [handler ?s] => destruct (handler s) as [[r|e] s'] eqn:Hh
    end; simpl; eexists _, _; (split; [reflexivity|]); simpl;
    split_and!; eauto.
Qed.



Ltac bind_step H :=
  first [ erewrite bind_ok in H by reflexivity
        | erewrite bind_ok in H by eassumption
        | erewrite bind_raised in H by reflexivity
        | erewrite bind_raised in H by eassumption ];
  cbv beta in H; cbn [fst snd] in H.


(** ** The endpoint's answers *)

(** C6 — A body that does not parse as JSON is answered with the error
    envelope of code -32603 and a null id; the world is left exactly as it
    was, so no handler was entered and no client was substituted. *)
Theorem malformed_body_yields_internal_error_with_null_id request e w :
  request_json request = Raised e →
  mcp_endpoint request w
    = (Ok (error_envelope JNull (-32603) "Internal error" (Some (str_exn e))), w).
Proof.
  intros H. unfold mcp_endpoint. rewrite H. reflexivity.
Qed.

(** C7 — A request object whose method is none of [initialize],
    [tools/list], [tools/call], [resources/list] is answered with the error
    envelope of code -32601, message "Method not found: " followed by the
    method, and the request's id.  No handler is entered, the module-level
    clients stay as they were, and no existing object changes. *)
Theorem unknown_method_is_rejected_without_side_effects
    fields jira_token confluence_token w :
  let method := default JNull (dict_get fields "method") in
  let request_id := default JNull (dict_get fields "id") in
  str_eq method "initialize" = false →
  str_eq method "tools/list" = false →
  str_eq method "tools/call" = false →
  str_eq method "resources/list" = false →
  configured jira_client w →
  configured confluence_client w →
  ∃ w',
    process_mcp_request (JObj fields) jira_token confluence_token w
      = (Ok (error_envelope request_id (-32601)
               ("Method not found: " +:+ format_value method) None), w') ∧
    calls w' = calls w ∧
    server_jira_client (store w') = server_jira_client (store w) ∧
    server_confluence_client (store w') = server_confluence_client (store w) ∧
    (∀ l o, heap (store w) !! l = Some o → heap (store w') !! l = Some o).
Proof.
  intros method request_id H1 H2 H3 H4 Hj Hc.
  destruct (make_temp_clients_spec jira_token confluence_token w Hj Hc)
    as (tj & tc & w' & E & (Xh & Xj & Xc & Xl) & _).
  exists w'. split; [|done].
  unfold process_mcp_request, try_except.
  do 3 (erewrite bind_ok by reflexivity; cbv beta).
  erewrite bind_ok by exact E. cbv beta.
  fold method. rewrite H1, H2, H3, H4. reflexivity.
Qed.

(** C5 (where the code departs from it) — A body that parses as JSON but is
    not an object, here the empty array, is not answered with an envelope:
    [request_data.get] raises [AttributeError] in [process_mcp_request], again
    in its [except] handler, and again in the handler of [mcp_endpoint], so
    the exception leaves the endpoint. *)
Theorem array_body_escapes_as_attribute_error hs w :
  mcp_endpoint {| headers := hs; request_json := Ok (JArr []) |} w
    = (Raised (Exn "AttributeError" "'list' object has no attribute 'get'"), w).
Proof. reflexivity. Qed.

Lemma response_for_result request_id result :
  response_for request_id (result_envelope request_id result).
Proof. left. by eexists. Qed.

Lemma response_for_error request_id code message data :
  response_for request_id (error_envelope request_id code message data).
Proof. right. by eexists _, _, _. Qed.

#[local] Hint Resolve response_for_result response_for_error : envelope.

(** For a body that is an object, every branch of [process_mcp_request],
    and every exception on the way, ends in one envelope carrying the id of
    the request ([null] when it has none). *)
Lemma process_mcp_request_object fields jira_token confluence_token w :
  ∃ envelope w',
    process_mcp_request (JObj fields) jira_token confluence_token w
      = (Ok envelope, w') ∧
    response_for (default JNull (dict_get fields "id")) envelope.
Proof.
  unfold process_mcp_request.
  match goal with
  | |- ∃ _ _, try_except ?b ?h w = _ ∧ _ => destruct (b w) as [r0 w0] eqn:Hb
  end.
  unfold try_except at 1. rewrite Hb.
  assert (match r0 with
          | Ok envelope => response_for (default JNull (dict_get fields "id")) envelope
          | Raised _ => True
          end) as Hr0.
  { do 3 bind_step Hb.
    destruct (make_temp_clients jira_token confluence_token w)
      as [[[tj tc]|e] w1] eqn:E; bind_step Hb; [|by injection Hb as <- <-].
    destruct (str_eq _ "initialize").
    { destruct (get_capabilities WithOptions) as [caps|e] eqn:Hcap.
      - unfold lift in Hb. rewrite (bind_ok _ _ w1 caps w1) in Hb by done.
        injection Hb as <- <-. auto with envelope.
      - unfold lift in Hb. rewrite (bind_raised _ _ w1 e w1) in Hb by done.
        by injection Hb as <- <-. }
    destruct (str_eq _ "tools/list").
    { unfold try_except, dispatch in Hb. monad_unfold.
      destruct (handle_list_tools (store w1)) as [[tools|e] s']; simpl in Hb;
        injection Hb as <- <-; unfold internal_error; auto with envelope. }
    destruct (str_eq _ "tools/call").
    { destruct (default (JObj []) (dict_get fields "params"))
        as [| | | | | |pfields] eqn:Hp;
        try (bind_step Hb; by injection Hb as <- <-).
      do 2 bind_step Hb.
      destruct (swap_block_spec
                  (CallTool (default JNull (dict_get pfields "name"))
                            (default (JObj []) (dict_get pfields "arguments")))
                  (handle_call_tool (default JNull (dict_get pfields "name"))
                                    (default (JObj []) (dict_get pfields "arguments")))
                  (λ result, result_envelope (default JNull (dict_get fields "id"))
                               (JObj [("content", result)]))
                  (λ e, internal_error (default JNull (dict_get fields "id"))
                          ("Tool execution failed: " +:+ str_exn e))
                  tj tc w1)
        as (env & w2 & Eb & _ & _ & _ & Henv).
      pose proof (eq_trans (eq_sym Eb) Hb) as Heq. injection Heq as <- <-.
      destruct Henv as [[? ->]|[? ->]]; unfold internal_error; auto with envelope. }
    destruct (str_eq _ "resources/list").
    { destruct (swap_block_spec ListResources handle_list_resources
                  (λ resource_list,
                     result_envelope (default JNull (dict_get fields "id"))
                       (JObj [("resources", JArr (resource_entry <$> resource_list))]))
                  (λ e, internal_error (default JNull (dict_get fields "id"))
                          ("Failed to get resources: " +:+ str_exn e))
                  tj tc w1)
        as (env & w2 & Eb & _ & _ & _ & Henv).
      pose proof (eq_trans (eq_sym Eb) Hb) as Heq. injection Heq as <- <-.
      destruct Henv as [[? ->]|[? ->]]; unfold internal_error; auto with envelope. }
    injection Hb as <- <-. auto with envelope. }
  destruct r0 as [envelope|e]; [by eauto|].
  erewrite bind_ok by reflexivity. cbv beta.
  eexists _, _. split; [reflexivity|]. unfold internal_error. auto with envelope.
Qed.

(** X1 — For every body that is an object, [POST /mcp] answers with one envelope
    carrying the request's id. *)
Lemma mcp_endpoint_object_body request fields w :
  request_json request = Ok (JObj fields) →
  ∃ envelope w',
    mcp_endpoint request w = (Ok envelope, w') ∧
    response_for (default JNull (dict_get fields "id")) envelope.
Proof.
  intros H. unfold mcp_endpoint. rewrite H.
  destruct (process_mcp_request_object fields
              (request_tokens (headers request)).1
              (request_tokens (headers request)).2 w) as (env & w' & E & R).
  exists env, w'. split; [|done].
  unfold try_except. by rewrite E.
Qed.

(** ** Tokens from the request headers *)

Lemma substring_all s : String.substring 0 (String.length s) s = s.
Proof. induction s as [|c s IH]; simpl; [done|by rewrite IH]. Qed.

Lemma prefix_empty s : String.prefix "" s = true.
Proof. by destruct s. Qed.

Lemma bearer_token_Bearer t : bearer_token (Some ("Bearer " +:+ t)) = Some t.
Proof.
  unfold bearer_token.
  change ("Bearer " +:+ t) with
    (String "B" (String "e" (String "a" (String "r" (String "e" (String "r"
       (String " " t))))))).
  simpl. rewrite prefix_empty, Nat.sub_0_r, substring_all. done.
Qed.

Lemma bearer_token_None_absent : bearer_token None = None.
Proof. done. Qed.

Lemma request_tokens_jira hs :
  (request_tokens hs).1 =
    if truthy (headers_get hs "x-jira-token") then headers_get hs "x-jira-token"
    else match bearer_token (headers_get hs "authorization") with
         | Some token => Some token
         | None => headers_get hs "x-jira-token"
         end.
Proof.
  unfold request_tokens.
  destruct (bearer_token _), (truthy (headers_get hs "x-jira-token")); done.
Qed.

Lemma request_tokens_confluence hs :
  (request_tokens hs).2 =
    if truthy (headers_get hs "x-confluence-token")
    then headers_get hs "x-confluence-token"
    else match bearer_token (headers_get hs "authorization") with
         | Some token => Some token
         | None => headers_get hs "x-confluence-token"
         end.
Proof.
  unfold request_tokens.
  destruct (bearer_token _), (truthy (headers_get hs "x-confluence-token")); done.
Qed.

Lemma resolved_carries svc dflt token t w w' temp :
  resolved svc dflt token w w' temp → token = Some t → t ≠ "" →
  carries svc dflt t w w' temp.
Proof.
  intros R -> Ht. destruct temp as [c|].
  - destruct R as (t' & [= <-] & _ & O). by exists c.
  - unfold resolved in R. rewrite truthy_nonempty in R by done. discriminate.
Qed.

Lemma resolved_none svc dflt token w w' temp :
  resolved svc dflt token w w' temp → truthy token = false → temp = None.
Proof.
  intros R Ht. destruct temp as [c|]; [|done].
  destruct R as (t' & -> & Hne & _). by rewrite truthy_nonempty in Ht.
Qed.

Lemma resolve_service_token svc dflt header auth w w' temp :
  resolved svc dflt
    (if truthy header then header
     else match bearer_token auth with
          | Some token => Some token
          | None => header
          end) w w' temp →
  (∀ t, header = Some t → t ≠ "" → carries svc dflt t w w' temp) ∧
  (∀ t, truthy header = false → auth = Some ("Bearer " +:+ t) → t ≠ "" →
        carries svc dflt t w w' temp) ∧
  (truthy header = false → truthy (bearer_token auth) = false → temp = None).
Proof.
  intros R. split_and!.
  - intros t -> Ht. rewrite (truthy_nonempty _ Ht) in R.
    by eapply resolved_carries.
  - intros t Hh -> Ht. rewrite Hh, bearer_token_Bearer in R.
    by eapply resolved_carries.
  - intros Hh Hb. rewrite Hh in R.
    destruct (bearer_token auth) as [token|]; by eapply resolved_none.
Qed.

(** C3 (as the code has it) — For every request whose default clients carry
    a configuration, credential resolution returns, and for each service:
    a service-specific header with a non-empty value gives an override
    carrying that value, whatever the [Authorization] header says; when the
    service-specific header is absent or empty, an [Authorization] header
    ["Bearer " ++ t] with [t] non-empty gives an override carrying [t]; when
    it is absent or empty and there is no non-empty bearer token, no
    override is created and the default client is the active one.  The rule
    of one service does not read the header of the other. *)
Theorem header_tokens_resolve_per_service hs w :
  configured jira_client w →
  configured confluence_client w →
  ∃ temp_jira temp_confluence w',
    make_temp_clients (request_tokens hs).1 (request_tokens hs).2 w
      = (Ok (temp_jira, temp_confluence), w') ∧
    (∀ t, headers_get hs "x-jira-token" = Some t → t ≠ "" →
          carries Jira jira_client t w w' temp_jira) ∧
    (∀ t, truthy (headers_get hs "x-jira-token") = false →
          headers_get hs "authorization" = Some ("Bearer " +:+ t) → t ≠ "" →
          carries Jira jira_client t w w' temp_jira) ∧
    (truthy (headers_get hs "x-jira-token") = false →
     truthy (bearer_token (headers_get hs "authorization")) = false →
     temp_jira = None ∧ active_client jira_client temp_jira = jira_client) ∧
    (∀ t, headers_get hs "x-confluence-token" = Some t → t ≠ "" →
          carries Confluence confluence_client t w w' temp_confluence) ∧
    (∀ t, truthy (headers_get hs "x-confluence-token") = false →
          headers_get hs "authorization" = Some ("Bearer " +:+ t) → t ≠ "" →
          carries Confluence confluence_client t w w' temp_confluence) ∧
    (truthy (headers_get hs "x-confluence-token") = false →
     truthy (bearer_token (headers_get hs "authorization")) = false →
     temp_confluence = None ∧
     active_client confluence_client temp_confluence = confluence_client).
Proof.
  intros Hj Hc.
  destruct (make_temp_clients_spec (request_tokens hs).1 (request_tokens hs).2 w Hj Hc)
    as (tj & tc & w' & E & _ & Rj & Rc).
  exists tj, tc, w'. split; [exact E|].
  rewrite request_tokens_jira in Rj. rewrite request_tokens_confluence in Rc.
  destruct (resolve_service_token _ _ _ _ _ _ _ Rj) as (J1 & J2 & J3).
  destruct (resolve_service_token _ _ _ _ _ _ _ Rc) as (C1 & C2 & C3).
  split_and!; try done.
  - intros H1 H2. by rewrite (J3 H1 H2).
  - intros H1 H2. by rewrite (C3 H1 H2).
Qed.

(** ** The SSE stream *)

Lemma run_app evs1 evs2 c :
  run (evs1 ++ evs2) c = match run evs1 c with
                         | Some c1 => run evs2 c1
                         | None => None
                         end.
Proof.
  revert c. induction evs1 as [|ev evs1 IH]; intros c; simpl; [done|].
  destruct (step ev c); [apply IH|done].
Qed.

(** An invariant indexed by the events consumed so far holds at the end of
    a run when every enabled step carries it over. *)
Lemma run_invariant (P : list event → Connection → Prop) :
  (∀ seen ev c c', P seen c → step ev c = Some c' → P (seen ++ [ev]) c') →
  ∀ evs seen c c', P seen c → run evs c = Some c' → P (seen ++ evs) c'.
Proof.
  intros Hstep. induction evs as [|ev evs IH]; intros seen c c' HP Hrun; simpl in Hrun.
  - injection Hrun as <-. by rewrite app_nil_r.
  - destruct (step ev c) as [c1|] eqn:E; [|done].
    replace (seen ++ ev :: evs) with ((seen ++ [ev]) ++ evs)
      by (by rewrite <- app_assoc).
    eapply IH; [|exact Hrun]. by eapply Hstep.
Qed.

Lemma remove_client_absent q t :
  q ∉ connected_clients t → remove_client q t = t.
Proof.
  intros H. destruct t as [qs cc]. unfold remove_client. simpl in *.
  f_equal. apply difference_disjoint_L. by apply disjoint_singleton_r.
Qed.

Lemma remove_client_idempotent q t :
  remove_client q (remove_client q t) = remove_client q t.
Proof.
  apply remove_client_absent. unfold remove_client. simpl.
  apply not_elem_of_difference. right. by apply elem_of_singleton.
Qed.

Lemma registration_first c0 c :
  gen c0 = Created → step (Resume Next) c0 = Some c →
  registration (add_client (sse_transport (sse c0))).1 (removed (sse c0)) c.
Proof.
  intros Hg. unfold step. simpl. rewrite Hg. simpl.
  destruct (get_capabilities NoArguments); intros [= <-];
    unfold registration; simpl; split_and!; try done;
    by apply elem_of_union_l, elem_of_singleton.
Qed.

Lemma registration_step q r0 ev c c' :
  registration q r0 c → step ev c = Some c' → registration q r0 c'.
Proof.
  unfold registration, step. intros R.
  destruct ev as [r|message]; [|by intros [= <-]].
  destruct (event_stream_step r (gen c) (sse c)) as [[[f g] st]|] eqn:E; [|done].
  intros [= <-]. simpl.
  destruct (gen c) as [|q1|q1|q1|q1|q1|q1|], r; simpl in *;
    repeat case_match; simplify_eq/=; try done; destruct R as ([= ->] & ? & ?);
    split_and?; try done;
    try (apply not_elem_of_difference; right; by apply elem_of_singleton);
    by f_equal.
Qed.

Lemma close_finishes c :
  gen c ≠ Finished →
  ∃ c', step (Resume Close) c = Some c' ∧ gen c' = Finished.
Proof.
  intros H. unfold step. simpl.
  destruct (gen c); try done; eexists; (split; [reflexivity|done]).
Qed.

Lemma run_cons ev evs c :
  run (ev :: evs) c = match step ev c with
                      | Some c' => run evs c'
                      | None => None
                      end.
Proof. reflexivity. Qed.

(** C9 — A connection registers its queue when the stream is first resumed.
    From then on, wherever the events lead: while the generator is
    suspended the queue is registered and no [remove_client] call has been
    made for it; once the generator has finished, by whatever path, exactly
    one such call has been made and the queue is no longer registered; and
    from every suspension point closing the generator finishes it.
    [remove_client] on a queue that is not registered changes nothing. *)
Theorem registered_queue_is_removed_exactly_once evs c0 c :
  gen c0 = Created →
  run (Resume Next :: evs) c0 = Some c →
  let q := (add_client (sse_transport (sse c0))).1 in
  match gen c with
  | Created => False
  | Finished =>
      removed (sse c) = removed (sse c0) ++ [q] ∧
      q ∉ connected_clients (sse_transport (sse c))
  | g =>
      queue_of g = Some q ∧
      removed (sse c) = removed (sse c0) ∧
      q ∈ connected_clients (sse_transport (sse c)) ∧
      ∃ c', step (Resume Close) c = Some c' ∧
            gen c' = Finished ∧
            removed (sse c') = removed (sse c0) ++ [q] ∧
            q ∉ connected_clients (sse_transport (sse c'))
  end ∧
  (∀ q' t, q' ∉ connected_clients t → remove_client q' t = t) ∧
  (∀ q' t, remove_client q' (remove_client q' t) = remove_client q' t).
Proof.
  intros Hg Hrun q. rewrite run_cons in Hrun.
  destruct (step (Resume Next) c0) as [c1|] eqn:E1; [|done].
  pose proof (registration_first _ _ Hg E1) as R1. fold q in R1.
  pose proof (run_invariant (λ _, registration q (removed (sse c0)))
                (λ _ ev c c', registration_step q _ ev c c') evs [] c1 c R1 Hrun) as R.
  simpl in R.
  split; [|split; [apply remove_client_absent|apply remove_client_idempotent]].
  destruct (gen c) eqn:Hc; unfold registration in R; rewrite Hc in R; try done.
  all: destruct R as (Hq & Hr & Hin); split_and!; try done.
  all: destruct (close_finishes c) as (c' & Hs & Hf); [by rewrite Hc|].
  all: exists c'; split; [done|]; split; [done|].
  all: assert (registration q (removed (sse c0)) c) as Rc
         by (unfold registration; rewrite Hc; done).
  all: pose proof (registration_step _ _ _ _ _ Rc Hs) as R'.
  all: unfold registration in R'; by rewrite Hf in R'.
Qed.




Lemma send_message_lookup message t q items :
  q ∈ connected_clients t →
  queues t !! q = Some items →
  queues (send_message message t) !! q = Some (items ++ [json_dumps message]).
Proof.
  intros Hin Hq. unfold send_message. simpl.
  rewrite map_lookup_imap, Hq. simpl. by rewrite decide_True.
Qed.










(** ** The SSE endpoint and the request headers *)

Lemma make_temp_jira_config_spec jira_token w :
  configured jira_client w →
  ∃ temp w', make_temp_jira_config jira_token w = (Ok temp, w') ∧ extends w w'.
Proof.
  intros Hcfg. unfold make_temp_jira_config.
  destruct jira_token as [token|]; [|by exists None, w; split; [|apply extends_refl]].
  destruct (truthy (Some token));
    [|by exists None, w; split; [|apply extends_refl]].
  destruct (client_config_ok _ _ Hcfg) as [cfg Hc].
  rewrite (bind_ok _ _ _ _ _ (client_url_ok _ _ _ Hc)).
  rewrite (bind_ok _ _ _ _ _ (client_ssl_verify_ok _ _ _ Hc)).
  unfold JiraConfig.
  destruct (alloc_spec (Config Jira {| url := url cfg; credential := PersonalToken token;
                                       ssl_verify := ssl_verify cfg |}) w)
    as (l1 & w1 & E1 & _ & _ & X1).
  rewrite (bind_ok _ _ _ _ _ E1). by exists (Some l1), w1.
Qed.

Lemma make_temp_confluence_config_spec confluence_token w :
  configured confluence_client w →
  ∃ temp w', make_temp_confluence_config confluence_token w = (Ok temp, w') ∧
             extends w w'.
Proof.
  intros Hcfg. unfold make_temp_confluence_config.
  destruct confluence_token as [token|];
    [|by exists None, w; split; [|apply extends_refl]].
  destruct (truthy (Some token));
    [|by exists None, w; split; [|apply extends_refl]].
  destruct (client_config_ok _ _ Hcfg) as [cfg Hc].
  rewrite (bind_ok _ _ _ _ _ (client_url_ok _ _ _ Hc)).
  rewrite (bind_ok _ _ _ _ _ (client_ssl_verify_ok _ _ _ Hc)).
  unfold ConfluenceConfig.
  destruct (alloc_spec (Config Confluence {| url := url cfg;
                                             credential := PersonalToken token;
                                             ssl_verify := ssl_verify cfg |}) w)
    as (l1 & w1 & E1 & _ & _ & X1).
  rewrite (bind_ok _ _ _ _ _ E1). by exists (Some l1), w1.
Qed.

Lemma sse_endpoint_spec request w :
  configured jira_client w → configured confluence_client w →
  ∃ w', sse_endpoint request w = (Ok Created, w') ∧ extends w w'.
Proof.
  intros Hj Hc. unfold sse_endpoint.
  destruct (make_temp_jira_config_spec (request_tokens (headers request)).1 w Hj)
    as (tj & w1 & E1 & X1).
  rewrite (bind_ok _ _ _ _ _ E1).
  destruct (make_temp_confluence_config_spec (request_tokens (headers request)).2 w1
              (configured_extends _ _ _ Hc X1)) as (tc & w2 & E2 & X2).
  rewrite (bind_ok _ _ _ _ _ E2).
  exists w2. split; [done|]. by eapply extends_trans.
Qed.

(** C10 — Whatever the headers of two requests to [/sse], the two
    connections, started in the same state and driven by the same events,
    yield the same stream: it is the run of the generator from its initial
    state, in which the request does not occur.  The configurations built
    from the headers are new heap objects; no handler is entered, so they
    reach no dispatcher call, and the module-level clients stay as they
    were. *)
Theorem sse_stream_is_independent_of_auth_headers request1 request2 evs w st :
  configured jira_client w →
  configured confluence_client w →
  ∃ w1 w2,
    sse_connection request1 evs w st
      = (Ok (run evs {| frames := []; gen := Created; sse := st |}), w1) ∧
    sse_connection request2 evs w st
      = (Ok (run evs {| frames := []; gen := Created; sse := st |}), w2) ∧
    (sse_connection request1 evs w st).1 = (sse_connection request2 evs w st).1 ∧
    extends w w1 ∧ extends w w2.
Proof.
  intros Hj Hc.
  destruct (sse_endpoint_spec request1 w Hj Hc) as (w1 & E1 & X1).
  destruct (sse_endpoint_spec request2 w Hj Hc) as (w2 & E2 & X2).
  exists w1, w2. unfold sse_connection. rewrite E1, E2. by split_and!.
Qed.

(** ** Branches of the request processor *)

(** X2 — A body that parses as JSON but is not an object never gets an envelope:
    the three [request_data.get] calls raise one after the other, and the
    [AttributeError] names the body's type.  The world is left as it was. *)
Theorem non_object_body_escapes_the_endpoint request v w :
  request_json request = Ok v →
  (∀ fields, v ≠ JObj fields) →
  mcp_endpoint request w
    = (Raised (Exn "AttributeError"
                   ("'" +:+ type_name v +:+ "' object has no attribute 'get'")), w).
Proof.
  intros H Hv. unfold mcp_endpoint. rewrite H.
  destruct v; try reflexivity. by destruct (Hv fields).
Qed.

(** The [tools/call] branch, step by step. *)
Lemma process_tools_call
    fields pfields jira_token confluence_token w temp_jira temp_confluence w1 :
  default JNull (dict_get fields "method") = JStr "tools/call" →
  default (JObj []) (dict_get fields "params") = JObj pfields →
  make_temp_clients jira_token confluence_token w
    = (Ok (temp_jira, temp_confluence), w1) →
  let tool_name := default JNull (dict_get pfields "name") in
  let arguments := default (JObj []) (dict_get pfields "arguments") in
  let request_id := default JNull (dict_get fields "id") in
  let installed :=
    {| heap := heap (store w1);
       server_jira_client := active_client (server_jira_client (store w1)) temp_jira;
       server_confluence_client :=
         active_client (server_confluence_client (store w1)) temp_confluence |} in
  process_mcp_request (JObj fields) jira_token confluence_token w
  = (Ok match (handle_call_tool tool_name arguments installed).1 with
        | Ok result => result_envelope request_id (JObj [("content", result)])
        | Raised e =>
            internal_error request_id ("Tool execution failed: " +:+ str_exn e)
        end,
     {| store :=
          {| heap := heap (handle_call_tool tool_name arguments installed).2;
             server_jira_client := server_jira_client (store w1);
             server_confluence_client := server_confluence_client (store w1) |};
        calls := calls w1 ++
                 [CallTool tool_name arguments
                    (server_jira_client installed)
                    (server_confluence_client installed)] |}).
Proof.
  intros Hm Hp E tool_name arguments request_id installed.
  unfold process_mcp_request.
  match goal with
  | |- try_except ?b ?h w = _ => destruct (b w) as [r0 w0] eqn:Hb
  end.
  unfold try_except at 1. rewrite Hb.
  do 3 bind_step Hb. bind_step Hb.
  rewrite Hm in Hb. simpl in Hb. rewrite Hp in Hb.
  do 2 bind_step Hb.
  unfold restore, install, dispatch, get_server_jira_client,
    get_server_confluence_client, set_server_jira_client,
    set_server_confluence_client in Hb.
  monad_unfold. subst installed tool_name arguments request_id.
  unfold active_client. clear E. destruct w1 as [[h sj sc] cl].
  destruct temp_jira as [tj|], temp_confluence as [tc|]; simpl in *;
    match goal with
    | |- context [handle_call_tool ?n ?a ?s] =>
        destruct (handle_call_tool n a s) as [[r|e] s'] eqn:Hh
    end; simpl in *; by simplify_eq.
Qed.

(** X3 — [tools/call] on an object of parameters: the handler is called with the
    name and arguments found there ([None] and [{}] when missing), on the
    store in which the resolved clients are bound.  Its result comes back
    under [result.content]; if it raises, the answer is the -32603 envelope
    with "Tool execution failed: " and the exception's text.  Either way the
    handler's changes to the heap stay, the two names are bound as before,
    and the call is recorded once. *)
Theorem tools_call_wraps_result_or_reports_failure
    fields pfields jira_token confluence_token w temp_jira temp_confluence w1 :
  default JNull (dict_get fields "method") = JStr "tools/call" →
  default (JObj []) (dict_get fields "params") = JObj pfields →
  make_temp_clients jira_token confluence_token w
    = (Ok (temp_jira, temp_confluence), w1) →
  let tool_name := default JNull (dict_get pfields "name") in
  let arguments := default (JObj []) (dict_get pfields "arguments") in
  let request_id := default JNull (dict_get fields "id") in
  let installed :=
    {| heap := heap (store w1);
       server_jira_client := active_client (server_jira_client (store w1)) temp_jira;
       server_confluence_client :=
         active_client (server_confluence_client (store w1)) temp_confluence |} in
  process_mcp_request (JObj fields) jira_token confluence_token w
  = (Ok match (handle_call_tool tool_name arguments installed).1 with
        | Ok result => result_envelope request_id (JObj [("content", result)])
        | Raised e =>
            internal_error request_id ("Tool execution failed: " +:+ str_exn e)
        end,
     {| store :=
          {| heap := heap (handle_call_tool tool_name arguments installed).2;
             server_jira_client := server_jira_client (store w1);
             server_confluence_client := server_confluence_client (store w1) |};
        calls := calls w1 ++
                 [CallTool tool_name arguments
                    (server_jira_client installed)
                    (server_confluence_client installed)] |}).
Proof. apply process_tools_call. Qed.

(** X4 — [tools/call] whose [params] is not an object ([null], an array of
    positional parameters, a string, a number): [params.get] raises before
    the swap, so the answer is the -32603 envelope carrying the
    [AttributeError] text, no handler is entered and the two names are not
    touched. *)
Theorem tools_call_with_non_object_params_is_an_internal_error
    fields params jira_token confluence_token w temps w1 :
  default JNull (dict_get fields "method") = JStr "tools/call" →
  default (JObj []) (dict_get fields "params") = params →
  (∀ pfields, params ≠ JObj pfields) →
  make_temp_clients jira_token confluence_token w = (Ok temps, w1) →
  process_mcp_request (JObj fields) jira_token confluence_token w
    = (Ok (internal_error (default JNull (dict_get fields "id"))
             ("'" +:+ type_name params +:+ "' object has no attribute 'get'")),
       w1) ∧
  calls w1 = calls w ∧
  server_jira_client (store w1) = server_jira_client (store w) ∧
  server_confluence_client (store w1) = server_confluence_client (store w).
Proof.
  intros Hm Hp Hno E.
  destruct (make_temp_clients_any _ _ _ _ _ E) as [(_ & Xj & Xc & Xl) _].
  split; [|done].
  unfold process_mcp_request.
  match goal with
  | |- try_except ?b ?h w = _ => destruct (b w) as [r0 w0] eqn:Hb
  end.
  unfold try_except at 1. rewrite Hb.
  do 3 bind_step Hb. bind_step Hb.
  rewrite Hm in Hb. simpl in Hb. rewrite Hp in Hb.
  destruct params; try (by destruct (Hno fields0));
    bind_step Hb; injection Hb as <- <-; reflexivity.
Qed.

(** X5 — [tools/list] does not use the request's credentials: the temporary
    clients are built but never bound, so the handler runs with the clients
    that were bound before the request, whatever the tokens.  The answer
    lists name, description and input schema of each tool in the handler's
    order, or is the -32603 envelope with "Failed to get tools: " and the
    exception's text. *)
Theorem tools_list_runs_on_the_bound_clients
    fields jira_token confluence_token w temps w1 :
  default JNull (dict_get fields "method") = JStr "tools/list" →
  make_temp_clients jira_token confluence_token w = (Ok temps, w1) →
  let request_id := default JNull (dict_get fields "id") in
  process_mcp_request (JObj fields) jira_token confluence_token w
  = (Ok match (handle_list_tools (store w1)).1 with
        | Ok tool_list =>
            result_envelope request_id
              (JObj [("tools", JArr (tool_entry <$> tool_list))])
        | Raised e =>
            internal_error request_id ("Failed to get tools: " +:+ str_exn e)
        end,
     {| store := (handle_list_tools (store w1)).2;
        calls := calls w ++
                 [ListTools (server_jira_client (store w))
                            (server_confluence_client (store w))] |}).
Proof.
  intros Hm E request_id.
  destruct (make_temp_clients_any _ _ _ _ _ E) as [(_ & Xj & Xc & Xl) _].
  unfold process_mcp_request.
  match goal with
  | |- try_except ?b ?h w = _ => destruct (b w) as [r0 w0] eqn:Hb
  end.
  unfold try_except at 1. rewrite Hb.
  do 3 bind_step Hb. bind_step Hb.
  rewrite Hm in Hb. simpl in Hb.
  unfold try_except, dispatch in Hb. monad_unfold.
  rewrite <- Xj, <- Xc, <- Xl. subst request_id.
  destruct (handle_list_tools (store w1)) as [[tools|e] s']; simpl in *;
    by simplify_eq.
Qed.

(** X6 — [initialize] enters no handler and binds nothing: the answer carries
    the protocol version, the capabilities and the server's name and
    version; if the capabilities call raises, it is the -32603 envelope
    with the exception's text. *)
Theorem initialize_reports_capabilities
    fields jira_token confluence_token w temps w1 :
  default JNull (dict_get fields "method") = JStr "initialize" →
  make_temp_clients jira_token confluence_token w = (Ok temps, w1) →
  let request_id := default JNull (dict_get fields "id") in
  process_mcp_request (JObj fields) jira_token confluence_token w
  = (Ok match get_capabilities WithOptions with
        | Ok capabilities =>
            result_envelope request_id
              (JObj [("protocolVersion", JStr "2024-11-05");
                     ("capabilities", capabilities);
                     ("serverInfo",
                      JObj [("name", JStr "mcp-jira-confluence");
                            ("version", JStr "0.3.0")])])
        | Raised e => internal_error request_id (str_exn e)
        end,
     w1) ∧
  calls w1 = calls w ∧
  server_jira_client (store w1) = server_jira_client (store w) ∧
  server_confluence_client (store w1) = server_confluence_client (store w).
Proof.
  intros Hm E request_id.
  destruct (make_temp_clients_any _ _ _ _ _ E) as [(_ & Xj & Xc & Xl) _].
  split; [|done].
  unfold process_mcp_request.
  match goal with
  | |- try_except ?b ?h w = _ => destruct (b w) as [r0 w0] eqn:Hb
  end.
  unfold try_except at 1. rewrite Hb.
  do 3 bind_step Hb. bind_step Hb.
  rewrite Hm in Hb. simpl in Hb. unfold lift in Hb. monad_unfold.
  destruct (get_capabilities WithOptions) as [caps|e]; simpl in *;
    by simplify_eq.
Qed.

(** X7 — [resources/list]: the handler runs on the store in which the resolved
    clients are bound, and its resources come back, in the handler's order,
    as entries of [result.resources]; if it raises, the answer is the -32603
    envelope with "Failed to get resources: " and the exception's text.
    Either way the two names are bound as before and the call is recorded
    once. *)
Theorem resources_list_wraps_entries_or_reports_failure
    fields jira_token confluence_token w temp_jira temp_confluence w1 :
  default JNull (dict_get fields "method") = JStr "resources/list" →
  make_temp_clients jira_token confluence_token w
    = (Ok (temp_jira, temp_confluence), w1) →
  let request_id := default JNull (dict_get fields "id") in
  let installed :=
    {| heap := heap (store w1);
       server_jira_client := active_client (server_jira_client (store w1)) temp_jira;
       server_confluence_client :=
         active_client (server_confluence_client (store w1)) temp_confluence |} in
  process_mcp_request (JObj fields) jira_token confluence_token w
  = (Ok match (handle_list_resources installed).1 with
        | Ok resource_list =>
            result_envelope request_id
              (JObj [("resources", JArr (resource_entry <$> resource_list))])
        | Raised e =>
            internal_error request_id ("Failed to get resources: " +:+ str_exn e)
        end,
     {| store :=
          {| heap := heap (handle_list_resources installed).2;
             server_jira_client := server_jira_client (store w1);
             server_confluence_client := server_confluence_client (store w1) |};
        calls := calls w1 ++
                 [ListResources (server_jira_client installed)
                                (server_confluence_client installed)] |}).
Proof.
  intros Hm E request_id installed.
  unfold process_mcp_request.
  match goal with
  | |- try_except ?b ?h w = _ => destruct (b w) as [r0 w0] eqn:Hb
  end.
  unfold try_except at 1. rewrite Hb.
  do 3 bind_step Hb. bind_step Hb.
  rewrite Hm in Hb. simpl in Hb.
  unfold restore, install, dispatch, get_server_jira_client,
    get_server_confluence_client, set_server_jira_client,
    set_server_confluence_client in Hb.
  monad_unfold. subst installed request_id.
  unfold active_client. clear E. destruct w1 as [[h sj sc] cl].
  destruct temp_jira as [tj|], temp_confluence as [tc|]; simpl in *;
    match goal with
    | |- context [handle_list_resources ?s] =>
        destruct (handle_list_resources s) as [[r|e] s'] eqn:Hh
    end; simpl in *; by simplify_eq.
Qed.

(** ** The transport's methods *)

Lemma apply_ops_snoc ops op t :
  apply_ops (ops ++ [op]) t = apply_op (apply_ops ops t) op.
Proof. unfold apply_ops. by rewrite foldl_app. Qed.

Lemma sent_snoc ops op :
  sent (ops ++ [op]) = sent ops ++ match op with Send m => [m] | _ => [] end.
Proof. unfold sent. rewrite omap_app. f_equal. by destruct op. Qed.

Lemma add_client_fresh t : (add_client t).1 ∉ dom (queues t).
Proof. apply is_fresh. Qed.

(** X8 — [add_client] on a transport whose registered queues all exist: the
    queue it returns is a new one, it has no pending item, it is registered,
    and nothing else changes; the number of connected clients grows by
    one. *)
Theorem add_client_registers_a_new_empty_queue t :
  connected_clients t ⊆ dom (queues t) →
  ((add_client t).1 ∉ dom (queues t)) ∧
  ((add_client t).1 ∉ connected_clients t) ∧
  queues (add_client t).2 !! (add_client t).1 = Some [] ∧
  connected_clients (add_client t).2 = {[(add_client t).1]} ∪ connected_clients t ∧
  size (connected_clients (add_client t).2) = S (size (connected_clients t)) ∧
  (∀ q, q ≠ (add_client t).1 → queues (add_client t).2 !! q = queues t !! q) ∧
  connected_clients (add_client t).2 ⊆ dom (queues (add_client t).2).
Proof.
  intros Hok. pose proof (add_client_fresh t) as Hf.
  assert ((add_client t).1 ∉ connected_clients t) as Hn.
  { intros Hin. apply Hf. by apply Hok. }
  split; [done|]. split; [done|].
  unfold add_client in *. simpl in *.
  split; [by rewrite lookup_insert_eq|]. split; [done|].
  split.
  { rewrite size_union; [by rewrite size_singleton|].
    by apply disjoint_singleton_l. }
  split; [intros q Hq; by rewrite lookup_insert_ne|].
  rewrite dom_insert_L. intros q Hq.
  apply elem_of_union in Hq as [Hq|Hq];
    [by apply elem_of_union_l|apply elem_of_union_r; by apply Hok].
Qed.

Lemma apply_op_registered q items t op :
  q ∈ connected_clients t →
  queues t !! q = Some items →
  op ≠ Leave q →
  q ∈ connected_clients (apply_op t op) ∧
  queues (apply_op t op) !! q
    = Some (items ++ match op with Send m => [json_dumps m] | _ => [] end).
Proof.
  intros Hin Hq Hop. destruct op as [|q'|m]; simpl.
  - rewrite app_nil_r. split; [by apply elem_of_union_r|].
    rewrite lookup_insert_ne; [done|].
    intros Heq. pose proof (add_client_fresh t) as Hf. unfold add_client in Hf.
    simpl in Hf. rewrite Heq in Hf. apply Hf. apply elem_of_dom. by eexists.
  - rewrite app_nil_r. split; [|done].
    apply elem_of_difference. split; [done|].
    intros Hs. apply elem_of_singleton in Hs. by subst.
  - split; [done|]. by apply send_message_lookup.
Qed.

Lemma apply_op_unregistered q t op :
  q ∉ connected_clients t →
  is_Some (queues t !! q) →
  (q ∉ connected_clients (apply_op t op)) ∧
  queues (apply_op t op) !! q = queues t !! q.
Proof.
  intros Hn [items Hq]. destruct op as [|q'|m]; simpl.
  - assert (fresh (dom (queues t)) ≠ q) as Hne.
    { intros Heq. pose proof (add_client_fresh t) as Hf. unfold add_client in Hf.
      simpl in Hf. rewrite Heq in Hf. apply Hf. apply elem_of_dom. by eexists. }
    split; [|by rewrite lookup_insert_ne].
    intros Hin. apply elem_of_union in Hin as [Hin|Hin]; [|done].
    apply elem_of_singleton in Hin. by subst.
  - split; [|done]. intros Hin. apply elem_of_difference in Hin as [Hin _]. done.
  - split; [done|]. rewrite map_lookup_imap, Hq. simpl. by rewrite decide_False.
Qed.

(** X9 — A client's queue holds the messages sent while it is registered, in the
    order they were sent, and nothing else: nothing sent before it joined,
    and, whatever calls follow its removal, nothing sent after it left.
    Other clients joining and leaving in between change nothing for it. *)
Theorem queue_holds_the_messages_sent_while_registered t during after :
  (∀ q, Leave q ∈ during → q ≠ (add_client t).1) →
  let q := (add_client t).1 in
  let joined := (add_client t).2 in
  let left := remove_client q (apply_ops during joined) in
  queues (apply_ops during joined) !! q = Some (json_dumps <$> sent during) ∧
  q ∈ connected_clients (apply_ops during joined) ∧
  queues (apply_ops after left) !! q = Some (json_dumps <$> sent during) ∧
  q ∉ connected_clients (apply_ops after left).
Proof.
  intros Hleave q joined left.
  assert (q ∈ connected_clients (apply_ops during joined) ∧
          queues (apply_ops during joined) !! q = Some (json_dumps <$> sent during))
    as [Hin Hq].
  { clear left. revert Hleave.
    induction during as [|op during IH] using rev_ind; intros Hleave.
    - unfold apply_ops, joined, q, add_client. simpl. split.
      + by apply elem_of_union_l, elem_of_singleton.
      + by rewrite lookup_insert_eq.
    - destruct IH as [Hin Hq].
      { intros q' Hq'. apply Hleave. apply elem_of_app. by left. }
      rewrite apply_ops_snoc, sent_snoc, fmap_app.
      assert (op ≠ Leave q) as Hop.
      { intros ->. eapply Hleave; [|reflexivity].
        apply elem_of_app. right. by apply list_elem_of_singleton. }
      destruct (apply_op_registered q _ _ op Hin Hq Hop) as [Hin' Hq'].
      split; [done|]. rewrite Hq'. f_equal. f_equal. by destruct op. }
  split; [done|]. split; [done|].
  assert ((q ∉ connected_clients left) ∧
          queues left !! q = Some (json_dumps <$> sent during)) as Hleft.
  { unfold left, remove_client. simpl. split; [|done].
    apply not_elem_of_difference. right. by apply elem_of_singleton. }
  clear Hin Hq. revert Hleft. generalize left. clear left.
  induction after as [|op after IH] using rev_ind; intros left [Hn Hq].
  - done.
  - rewrite apply_ops_snoc.
    destruct (IH left (conj Hn Hq)) as [Hq' Hn'].
    destruct (apply_op_unregistered q _ op Hn' ltac:(by eexists)) as [Hn'' Hq''].
    split; [by rewrite Hq''|done].
Qed.

(** ** Health and lifespan *)

(** X10 — [GET /health] answers whatever the two probes do.  The top-level status
    is "ok" even when a probe raises; each service is reported on its own,
    "ok" or "error: " with the exception's text; the Confluence probe runs,
    on the store the Jira probe left, also when the Jira probe raised; the
    probes go to the default clients; the count is the number of registered
    queues. *)
Theorem health_check_reports_each_service_and_stays_ok now t rt :
  let jira := get_session jira_client (runtime_store rt) in
  let confluence := get_session confluence_client jira.2 in
  health_check now t rt
  = (JObj [("status", JStr "ok");
           ("timestamp", JFloat now);
           ("services",
            JObj [("jira", JStr match jira.1 with
                                | Ok _ => "ok"
                                | Raised e => "error: " +:+ str_exn e
                                end);
                  ("confluence", JStr match confluence.1 with
                                      | Ok _ => "ok"
                                      | Raised e => "error: " +:+ str_exn e
                                      end)]);
           ("connected_clients", JInt (Z.of_nat (size (connected_clients t))))],
     {| runtime_store := confluence.2;
        client_ops := client_ops rt ++
                      [GetSession jira_client; GetSession confluence_client];
        log_lines := log_lines rt |}).
Proof.
  intros jira confluence. subst jira confluence.
  unfold health_check, probe, call_client.
  destruct (get_session jira_client (runtime_store rt)) as [[[]|e1] s1]; simpl;
    destruct (get_session confluence_client s1) as [[[]|e2] s2]; simpl;
    by rewrite <- app_assoc.
Qed.

(** X11 — Startup asks both default clients for a session, Jira first, and the
    second attempt is made whether or not the first raised; a failure is
    logged as a warning and startup completes. *)
Theorem startup_attempts_both_sessions rt :
  let jira := get_session jira_client (runtime_store rt) in
  let confluence := get_session confluence_client jira.2 in
  startup rt
  = {| runtime_store := confluence.2;
       client_ops := client_ops rt ++
                     [GetSession jira_client; GetSession confluence_client];
       log_lines :=
         log_lines rt ++
         [("INFO", "Starting SSE server...");
          match jira.1 with
          | Ok _ => ("INFO", "Jira client initialized successfully")
          | Raised e =>
              ("WARNING", "Failed to initialize Jira client: " +:+ str_exn e)
          end;
          match confluence.1 with
          | Ok _ => ("INFO", "Confluence client initialized successfully")
          | Raised e =>
              ("WARNING", "Failed to initialize Confluence client: " +:+ str_exn e)
          end;
          ("INFO", "SSE server startup complete")] |}.
Proof.
  intros jira confluence. subst jira confluence.
  unfold startup, call_client, logger.
  destruct (get_session jira_client _) as [[[]|e1] s1]; simpl;
    destruct (get_session confluence_client s1) as [[[]|e2] s2]; simpl;
    by rewrite <- !app_assoc.
Qed.

(** X12 — Shutdown closes the Jira client first.  If that raises, the Confluence
    client is not closed at all: the error is logged and shutdown ends.
    Otherwise the Confluence client is closed, and success is logged only
    when that returns too. *)
Theorem shutdown_skips_confluence_when_jira_close_raises rt :
  let jira := close jira_client (runtime_store rt) in
  let confluence := close confluence_client jira.2 in
  shutdown rt
  = match jira.1 with
    | Raised e =>
        {| runtime_store := jira.2;
           client_ops := client_ops rt ++ [CloseClient jira_client];
           log_lines := log_lines rt ++
                        [("INFO", "Shutting down SSE server...");
                         ("ERROR", "Error during shutdown: " +:+ str_exn e)] |}
    | Ok _ =>
        {| runtime_store := confluence.2;
           client_ops := client_ops rt ++
                         [CloseClient jira_client; CloseClient confluence_client];
           log_lines := log_lines rt ++
                        [("INFO", "Shutting down SSE server...");
                         match confluence.1 with
                         | Ok _ => ("INFO", "SSE server shut down successfully")
                         | Raised e =>
                             ("ERROR", "Error during shutdown: " +:+ str_exn e)
                         end] |}
    end.
Proof.
  intros jira confluence. subst jira confluence.
  unfold shutdown, call_client, logger.
  destruct (close jira_client _) as [[[]|e1] s1]; simpl;
    [destruct (close confluence_client s1) as [[[]|e2] s2]; simpl|];
    by rewrite <- !app_assoc.
Qed.

(** ** The client's headers, read back by the server *)

Lemma headers_get_app hs others name :
  headers_get (hs ++ others) name =
    match headers_get hs name with
    | Some v => Some v
    | None => headers_get others name
    end.
Proof.
  induction hs as [|[k v] hs IH]; simpl; [done|].
  by destruct (String.eqb k name).
Qed.

(** X13 — What the server resolves from the headers [connect] builds.  With two
    different non-empty tokens each service gets its own; with one non-empty
    token (or twice the same) that token is used for both services; with
    none, the request carries no token.  The other headers of the request
    are any that are not one of the three the server reads. *)
Theorem connect_headers_resolve_to_the_client_tokens
    jira_token confluence_token others :
  headers_get others "authorization" = None →
  headers_get others "x-jira-token" = None →
  headers_get others "x-confluence-token" = None →
  request_tokens (received (connect_headers jira_token confluence_token) others) =
    if truthy jira_token && truthy confluence_token
    then (jira_token, confluence_token)
    else if truthy jira_token then (jira_token, jira_token)
    else if truthy confluence_token then (confluence_token, confluence_token)
    else (None, None).
Proof.
  intros Ha Hj Hc.
  unfold request_tokens, received. rewrite !headers_get_app, Ha, Hj, Hc.
  unfold connect_headers.
  destruct (truthy jira_token) eqn:Tj, (truthy confluence_token) eqn:Tc;
    cbn [andb].
  - destruct jira_token as [j|], confluence_token as [c|]; try done.
    change (default "" (Some j)) with j. change (default "" (Some c)) with c.
    case_bool_decide as Heq.
    + pose proof (bearer_token_Bearer j) as Hb; unfold bearer_token in Hb.
      remember ("Bearer " +:+ j) as h. simpl. rewrite Hb. by simplify_eq.
    + done.
  - destruct jira_token as [j|]; [|done]. change (default "" (Some j)) with j.
    pose proof (bearer_token_Bearer j) as Hb; unfold bearer_token in Hb.
    remember ("Bearer " +:+ j) as h. simpl. by rewrite Hb.
  - destruct confluence_token as [c|]; [|done]. change (default "" (Some c)) with c.
    pose proof (bearer_token_Bearer c) as Hb; unfold bearer_token in Hb.
    remember ("Bearer " +:+ c) as h. simpl. by rewrite Hb.
  - done.
Qed.

(** ** The client against this server *)

Lemma result_of_result label request_id result w :
  result_of label (result_envelope request_id result) w = (Ok result, w).
Proof. reflexivity. Qed.

Lemma result_of_error label request_id code message data w :
  result_of label (error_envelope request_id code message data) w
  = (Raised (Exn "Exception"
               (label +:+ py_repr (JObj ([("code", JInt code); ("message", JStr message)]
                                         ++ match data with
                                            | Some d => [("data", JStr d)]
                                            | None => []
                                            end)))), w).
Proof. by destruct data. Qed.

Lemma post_object hs post fields w :
  served_by hs post →
  ∃ envelope w',
    post (JObj fields) w = (Ok envelope, w') ∧
    response_for (default JNull (dict_get fields "id")) envelope.
Proof.
  intros Hpost.
  destruct (process_mcp_request_object fields
              (request_tokens hs).1 (request_tokens hs).2 w) as (env & w' & E & R).
  exists env, w'. split; [|done].
  apply Hpost. unfold mcp_endpoint, try_except. simpl. by rewrite E.
Qed.

Lemma direct_post_served hs : served_by hs (direct_post hs).
Proof. intros request w envelope w' H. exact H. Qed.

Lemma result_of_response label request_id envelope w :
  response_for request_id envelope →
  result_or_error label (result_of label envelope w).1.
Proof.
  intros [[result ->]|(code & message & data & ->)].
  - by rewrite result_of_result.
  - rewrite result_of_error. simpl. eauto.
Qed.

(** X14 — Against this server the three requests of the client end in the value
    under [result] or in the client's own exception built from the [error]
    object: [result["result"]] is never missing, whatever the handlers and the
    configuration do. *)
Theorem client_requests_end_in_a_result_or_the_reported_error
    hs post name arguments w :
  served_by hs post →
  result_or_error "Initialization failed: " (initialize post w).1 ∧
  result_or_error "Tool call failed: " (call_tool post name arguments w).1 ∧
  result_or_error "List tools failed: " (list_tools post w).1.
Proof.
  intros Hpost. unfold initialize, call_tool, list_tools.
  split_and!;
    match goal with
    | |- context [post (JObj ?fields)] =>
        destruct (post_object hs post fields w Hpost) as (env & w' & E & R)
    end;
    erewrite bind_ok by exact E; by eapply result_of_response.
Qed.

(** X15 — [call_tool] end to end: the value returned is the handler's result under
    [content]; when the handler raises, the client raises [Exception] with
    "Tool call failed: " and the server's -32603 error object, whose [data]
    holds the handler's exception text.  The handler runs on the clients
    resolved from the headers the transport carries. *)
Theorem call_tool_returns_the_content_or_raises_the_tool_failure
    hs post name arguments w temp_jira temp_confluence w1 :
  served_by hs post →
  make_temp_clients (request_tokens hs).1 (request_tokens hs).2 w
    = (Ok (temp_jira, temp_confluence), w1) →
  let installed :=
    {| heap := heap (store w1);
       server_jira_client := active_client (server_jira_client (store w1)) temp_jira;
       server_confluence_client :=
         active_client (server_confluence_client (store w1)) temp_confluence |} in
  (call_tool post name arguments w).1 =
    match (handle_call_tool (JStr name) arguments installed).1 with
    | Ok result => Ok (JObj [("content", result)])
    | Raised e =>
        Raised (Exn "Exception"
                  ("Tool call failed: " +:+
                   py_repr (JObj [("code", JInt (-32603));
                                  ("message", JStr "Internal error");
                                  ("data", JStr ("Tool execution failed: " +:+
                                                 str_exn e))])))
    end.
Proof.
  intros Hpost E installed. unfold call_tool.
  match goal with
  | |- context [post (JObj ?fields)] =>
      pose proof (process_tools_call fields
                    [("name", JStr name); ("arguments", arguments)]
                    _ _ w temp_jira temp_confluence w1 eq_refl eq_refl E) as Hp;
      pose proof (Hpost (JObj fields) w) as Hserved
  end.
  cbv zeta in Hp. unfold mcp_endpoint, try_except in Hserved. simpl in Hserved.
  rewrite Hp in Hserved. specialize (Hserved _ _ eq_refl).
  erewrite bind_ok by exact Hserved.
  change (default JNull (dict_get [("name", JStr name); ("arguments", arguments)] "name"))
    with (JStr name).
  change (default (JObj []) (dict_get [("name", JStr name); ("arguments", arguments)]
                               "arguments")) with arguments.
  fold installed.
  destruct (handle_call_tool (JStr name) arguments installed) as [[result|e] s'];
    simpl fst.
  - done.
  - done.
Qed.

(** ** The launchers *)

Lemma filter_nil_iff {A} (f : A → bool) (l : list A) :
  List.filter f l = [] ↔ ∀ x, x ∈ l → f x = false.
Proof.
  induction l as [|a l IH]; simpl.
  - split; [|done]. intros _ x Hx. by apply elem_of_nil in Hx.
  - destruct (f a) eqn:Ha.
    + split; [done|]. intros H. specialize (H a (list_elem_of_here _ _)). congruence.
    + rewrite IH. split.
      * intros H x [->|Hx]%elem_of_cons; auto.
      * intros H x Hx. apply H. by apply list_elem_of_further.
Qed.

Lemma run_sse_missing_nil env :
  run_sse.missing_vars env = [] ↔
  ∀ var, var ∈ run_sse.required_env_vars → truthy (getenv env var) = true.
Proof.
  unfold run_sse.missing_vars. rewrite filter_nil_iff.
  split; intros H var Hvar; specialize (H var Hvar).
  - by apply negb_false_iff.
  - by apply negb_false_iff.
Qed.

(** X16 — [run_sse.main] gives up with exit code 1, before [uvicorn.run] is
    called, exactly when one of the six required variables is unset or
    empty. *)
Theorem run_sse_refuses_exactly_the_incomplete_environments uvicorn_run args env :
  ((run_sse.main uvicorn_run args env).1.1 = Some 1%Z ∧
   (run_sse.main uvicorn_run args env).2 = [])
  ↔ ∃ var, var ∈ run_sse.required_env_vars ∧ truthy (getenv env var) = false.
Proof.
  unfold run_sse.main.
  destruct (run_sse.missing_vars env) as [|var rest] eqn:Hm.
  - split.
    + intros [_ Hcalls]. by destruct (uvicorn_run _).
    + intros (var & Hvar & Hfalse).
      rewrite (proj1 (run_sse_missing_nil env) Hm var Hvar) in Hfalse. done.
  - split; [intros _|done].
    exists var.
    assert (In var (run_sse.missing_vars env)) as Hin by (rewrite Hm; by left).
    apply filter_In in Hin as [Hin Hf].
    split; [by apply list_elem_of_In|by apply negb_true_iff].
Qed.

(** X17 — With the six variables set, [run_sse.main] calls [uvicorn.run] once, with
    one worker under [--reload] and the requested number otherwise, and its
    exit code tells how the server came back: none when it returned, 0 after
    Ctrl-C, 1 after an exception. *)
Theorem run_sse_starts_one_server_with_one_worker_under_reload uvicorn_run args env :
  (∀ var, var ∈ run_sse.required_env_vars → truthy (getenv env var) = true) →
  ∃ call,
    (run_sse.main uvicorn_run args env).2 = [call] ∧
    run_sse.run_workers call
      = (if run_sse.reload args then 1%Z else run_sse.workers args) ∧
    run_sse.run_reload call = run_sse.reload args ∧
    (run_sse.main uvicorn_run args env).1.1
      = match uvicorn_run call with
        | Returned => None
        | Interrupted => Some 0%Z
        | Failed _ => Some 1%Z
        end.
Proof.
  intros H. apply run_sse_missing_nil in H.
  unfold run_sse.main. rewrite H.
  destruct (uvicorn_run _) eqn:Hrun;
    (eexists; split_and!;
       [reflexivity|by destruct (run_sse.reload args)|reflexivity|by rewrite Hrun]).
Qed.

(** X18 — The two launchers ask for different variables: an environment that
    [run_sse.main] accepts passes [check_env_vars] of [start_sse.py] only if
    it also holds, for each service, a personal token or a user name. *)
Theorem launchers_agree_only_with_a_user_name_or_personal_token env :
  run_sse.missing_vars env = [] →
  (start_sse.check_env_vars env).1 = true
  ↔ (truthy (getenv env "JIRA_PERSONAL_TOKEN") || truthy (getenv env "JIRA_USERNAME"))
    && (truthy (getenv env "CONFLUENCE_PERSONAL_TOKEN")
        || truthy (getenv env "CONFLUENCE_USERNAME")) = true.
Proof.
  intros H. pose proof (proj1 (run_sse_missing_nil env) H) as Hall.
  assert (∀ var, In var run_sse.required_env_vars → truthy (getenv env var) = true)
    as H' by (intros var Hvar; by apply Hall, list_elem_of_In).
  unfold run_sse.required_env_vars in H'. simpl in H'.
  unfold start_sse.check_env_vars, start_sse.missing_vars.
  rewrite (H' "JIRA_URL"), (H' "JIRA_API_TOKEN"), (H' "CONFLUENCE_URL"),
    (H' "CONFLUENCE_API_TOKEN")
    by (repeat first [by left|right]).
  destruct (truthy (getenv env "JIRA_PERSONAL_TOKEN")),
    (truthy (getenv env "JIRA_USERNAME")),
    (truthy (getenv env "CONFLUENCE_PERSONAL_TOKEN")),
    (truthy (getenv env "CONFLUENCE_USERNAME")); simpl; done.
Qed.

End Server.

(** * Interleaved requests *)

(** A task that runs alone finds its own resolved clients bound each time
    its handler runs, and leaves the module-level names as it found them. *)
Lemma interleaving_run_cons i schedule s :
  Interleaving.run (i :: schedule) s
  = Interleaving.run schedule (Interleaving.step i s).
Proof. reflexivity. Qed.

Lemma suspended_task_alone original_jira original_confluence n g seen :
  Interleaving.run (replicate (S n) 0%nat)
    {| Interleaving.globals := g;
       Interleaving.tasks := [Interleaving.Suspended original_jira original_confluence n];
       Interleaving.observed := seen |}
  = {| Interleaving.globals :=
         {| Interleaving.jira_client := original_jira;
            Interleaving.confluence_client := original_confluence |};
       Interleaving.tasks := [Interleaving.Completed];
       Interleaving.observed :=
         seen ++ replicate (S n) (0%nat, Interleaving.bound g) |}.
Proof.
  revert seen. induction n as [|n IH]; intros seen; [reflexivity|].
  change (replicate (S (S n)) 0%nat) with (0%nat :: replicate (S n) 0%nat).
  rewrite interleaving_run_cons.
  change (Interleaving.step 0 _) with
    {| Interleaving.globals := g;
       Interleaving.tasks := [Interleaving.Suspended original_jira original_confluence n];
       Interleaving.observed := seen ++ [(0%nat, Interleaving.bound g)] |}.
  rewrite IH. by rewrite <- app_assoc.
Qed.

Lemma task_alone_is_isolated temp_jira temp_confluence n g :
  Interleaving.run (replicate (S n) 0%nat)
    {| Interleaving.globals := g;
       Interleaving.tasks := [Interleaving.Pending temp_jira temp_confluence n];
       Interleaving.observed := [] |}
  = {| Interleaving.globals := g;
       Interleaving.tasks := [Interleaving.Completed];
       Interleaving.observed :=
         replicate (S n)
           (0%nat, Interleaving.bound
                     (Interleaving.install temp_jira temp_confluence g)) |}.
Proof.
  destruct n as [|n]; [by destruct g|].
  change (replicate (S (S n)) 0%nat) with (0%nat :: replicate (S n) 0%nat).
  rewrite interleaving_run_cons.
  change (Interleaving.step 0 _) with
    {| Interleaving.globals := Interleaving.install temp_jira temp_confluence g;
       Interleaving.tasks :=
         [Interleaving.Suspended (Interleaving.jira_client g)
            (Interleaving.confluence_client g) n];
       Interleaving.observed :=
         [(0%nat, Interleaving.bound
                    (Interleaving.install temp_jira temp_confluence g))] |}.
  rewrite suspended_task_alone. by destruct g.
Qed.

(** Under any schedule, a task entering its handler finds its own resolved
    clients bound, and keeps as originals what was bound at that moment. *)
Lemma entry_installs_resolved_clients i s temp_jira temp_confluence n :
  Interleaving.tasks s !! i = Some (Interleaving.Pending temp_jira temp_confluence n) →
  Interleaving.observed (Interleaving.step i s)
    = Interleaving.observed s ++
      [(i, Interleaving.bound
             (Interleaving.install temp_jira temp_confluence (Interleaving.globals s)))].
Proof.
  intros H. unfold Interleaving.step. rewrite H. by destruct n.
Qed.

(** Under any schedule, the stretch in which a handler returns ends with the
    two names bound to the originals the task saved. *)
Lemma completion_restores_saved_clients i s original_jira original_confluence :
  Interleaving.tasks s !! i
    = Some (Interleaving.Suspended original_jira original_confluence 0) →
  Interleaving.globals (Interleaving.step i s)
    = {| Interleaving.jira_client := original_jira;
         Interleaving.confluence_client := original_confluence |}.
Proof.
  intros H. unfold Interleaving.step. by rewrite H.
Qed.

(** C2 (where the code departs from it) — Two [tools/call] requests with
    different overrides, each handler suspending once, and a third request
    without credentials that arrives when both have returned.  Request 0
    installs clients 10 and 11 and suspends; request 1 saves those as its
    originals, installs 20 and 21 and suspends; request 0 resumes and finds
    20 and 21 bound, the clients of the other request, then restores the
    defaults 1 and 2; request 1 resumes on the defaults and "restores" 10
    and 11, the temporary clients of request 0, which stay bound after both
    have returned: request 2 enters its handler with them. *)
Theorem interleaved_tool_calls_observe_each_others_clients :
  let s0 :=
    {| Interleaving.globals :=
         {| Interleaving.jira_client := 1%positive;
            Interleaving.confluence_client := 2%positive |};
       Interleaving.tasks :=
         [Interleaving.Pending (Some 10%positive) (Some 11%positive) 1;
          Interleaving.Pending (Some 20%positive) (Some 21%positive) 1;
          Interleaving.Pending None None 0];
       Interleaving.observed := [] |} in
  let s := Interleaving.run [0; 1; 0; 1; 2]%nat s0 in
  Interleaving.observations_of 0 s
    = [(10%positive, 11%positive); (20%positive, 21%positive)] ∧
  Interleaving.observations_of 1 s
    = [(20%positive, 21%positive); (1%positive, 2%positive)] ∧
  Interleaving.observations_of 2 s = [(10%positive, 11%positive)] ∧
  Interleaving.tasks s
    = [Interleaving.Completed; Interleaving.Completed; Interleaving.Completed] ∧
  Interleaving.globals s
    = {| Interleaving.jira_client := 10%positive;
         Interleaving.confluence_client := 11%positive |}.
Proof. by vm_compute. Qed.

(** * Instances on the concrete deployment *)

Lemma sample_jira_configured : configured 1%positive sample_world.
Proof. exists Jira, 3%positive, Jira, default_jira_config. by vm_compute. Qed.

Lemma sample_confluence_configured : configured 2%positive sample_world.
Proof.
  exists Confluence, 4%positive, Confluence, default_confluence_config. by vm_compute.
Qed.


(** The resolution step on the deployment, with a Jira token only: the
    default configurations read the same before and after. *)
Lemma resolution_keeps_sample_defaults :
  client_config 1%positive sample_world = (Ok default_jira_config, sample_world) ∧
  client_config 2%positive sample_world = (Ok default_confluence_config, sample_world) ∧
  ∃ temp_jira temp_confluence w',
    make_temp_clients 1%positive 2%positive (Some "alice-token") None sample_world
      = (Ok (temp_jira, temp_confluence), w') ∧
    is_Some temp_jira ∧
    temp_confluence = None ∧
    client_config 1%positive w' = (Ok default_jira_config, w') ∧
    client_config 2%positive w' = (Ok default_confluence_config, w').
Proof.
  split; [by vm_compute|]. split; [by vm_compute|].
  destruct (resolution_copies_default_and_leaves_it_unchanged
              1%positive 2%positive (Some "alice-token") None sample_world
              default_jira_config default_confluence_config
              ltac:(by vm_compute) ltac:(by vm_compute))
    as (tj & tc & w' & E & Tj & Tc & _ & _ & _ & Hj & Hc).
  exists tj, tc, w'. split; [exact E|].
  split; [by apply Tj|].
  split; [|by split].
  destruct tc as [c|]; [|done]. by destruct (proj1 Tc ltac:(eauto)).
Defined.

(** A bearer token together with a Confluence header: Jira takes the bearer
    token, Confluence the header's. *)
Lemma bearer_and_confluence_header_resolve :
  let hs := [("authorization", "Bearer alice-token");
             ("x-confluence-token", "bob-token")] in
  configured 1%positive sample_world ∧
  configured 2%positive sample_world ∧
  ∃ temp_jira temp_confluence w',
    make_temp_clients 1%positive 2%positive
        (request_tokens hs).1 (request_tokens hs).2 sample_world
      = (Ok (temp_jira, temp_confluence), w') ∧
    carries Jira 1%positive "alice-token" sample_world w' temp_jira ∧
    carries Confluence 2%positive "bob-token" sample_world w' temp_confluence.
Proof.
  intros hs.
  split; [exact sample_jira_configured|].
  split; [exact sample_confluence_configured|].
  destruct (header_tokens_resolve_per_service 1%positive 2%positive hs sample_world
              sample_jira_configured sample_confluence_configured)
    as (tj & tc & w' & E & _ & Jb & _ & Ch & _ & _).
  exists tj, tc, w'. split; [exact E|]. split.
  - apply Jb; [reflexivity|reflexivity|discriminate].
  - apply Ch; [reflexivity|discriminate].
Defined.

(** An [X-Jira-Token] header with an empty value next to a bearer token:
    the header is present, yet the Jira override carries the bearer token,
    not the header's value. *)
Lemma empty_jira_header_yields_to_bearer :
  (let hs := [("authorization", "Bearer alice-token"); ("x-jira-token", "")] in
   headers_get hs "x-jira-token" = Some "" ∧
   request_tokens hs = (Some "alice-token", Some "alice-token") ∧
   ∃ w',
     make_temp_clients 1%positive 2%positive
         (request_tokens hs).1 (request_tokens hs).2 sample_world
       = (Ok (Some 6%positive, Some 8%positive), w') ∧
     heap (store w') !! 6%positive = Some (Client Jira 5%positive) ∧
     heap (store w') !! 5%positive
       = Some (Config Jira {| url := "https://jira.example.org";
                              credential := PersonalToken "alice-token";
                              ssl_verify := true |})).
Proof.
  split; [reflexivity|]. split; [reflexivity|].
  eexists. split; [by vm_compute|]. split; by vm_compute.
Qed.

(** A body that is not JSON. *)
Lemma malformed_body_on_sample :
  let request :=
    {| headers := [("authorization", "Bearer alice-token")];
       request_json := Raised (Exn "JSONDecodeError" "Expecting value: line 1 column 1 (char 0)") |} in
  request_json request
    = Raised (Exn "JSONDecodeError" "Expecting value: line 1 column 1 (char 0)") ∧
  mcp_endpoint 1%positive 2%positive sample_capabilities sample_list_tools
      sample_call_tool sample_list_resources sample_repr request sample_world
    = (Ok (JObj [("jsonrpc", JStr "2.0");
                 ("id", JNull);
                 ("error", JObj [("code", JInt (-32603));
                                 ("message", JStr "Internal error");
                                 ("data", JStr "Expecting value: line 1 column 1 (char 0)")])]),
       sample_world).
Proof.
  intros request. split; [reflexivity|].
  exact (malformed_body_yields_internal_error_with_null_id
           1%positive 2%positive sample_capabilities sample_list_tools
           sample_call_tool sample_list_resources sample_repr request _ sample_world
           eq_refl).
Defined.

(** The method ["nope"]. *)
Lemma unknown_method_on_sample :
  let fields := [("jsonrpc", JStr "2.0"); ("id", JInt 3); ("method", JStr "nope")] in
  configured 1%positive sample_world ∧
  configured 2%positive sample_world ∧
  ∃ w',
    process_mcp_request 1%positive 2%positive sample_capabilities sample_list_tools
        sample_call_tool sample_list_resources sample_repr
        (JObj fields) (Some "alice-token") None sample_world
      = (Ok (JObj [("jsonrpc", JStr "2.0");
                   ("id", JInt 3);
                   ("error", JObj [("code", JInt (-32601));
                                   ("message", JStr "Method not found: nope")])]),
         w') ∧
    calls w' = [] ∧
    server_jira_client (store w') = 1%positive ∧
    server_confluence_client (store w') = 2%positive.
Proof.
  intros fields.
  split; [exact sample_jira_configured|].
  split; [exact sample_confluence_configured|].
  destruct (unknown_method_is_rejected_without_side_effects
              1%positive 2%positive sample_capabilities sample_list_tools
              sample_call_tool sample_list_resources sample_repr
              fields (Some "alice-token") None sample_world
              eq_refl eq_refl eq_refl eq_refl
              sample_jira_configured sample_confluence_configured)
    as (w' & E & Hcalls & Hj & Hc & _).
  exists w'. split; [exact E|]. split; [exact Hcalls|]. split; [exact Hj|exact Hc].
Defined.



(** The sample stream registers queue 1 and removes it once. *)
Lemma sample_stream_deregisters_once :
  gen fresh_connection = Created ∧
  ∃ c,
    run ready_capabilities sample_dumps (Resume Next :: sample_events) fresh_connection
      = Some c ∧
    gen c = Finished ∧
    removed (sse c) = [1%positive] ∧
    1%positive ∉ connected_clients (sse_transport (sse c)).
Proof.
  split; [reflexivity|].
  eexists. split; [by vm_compute|]. split; [reflexivity|].
  exact (proj1 (registered_queue_is_removed_exactly_once
                  ready_capabilities sample_dumps sample_events fresh_connection _
                  eq_refl ltac:(by vm_compute))).
Defined.

(** Two connections, one with a bearer token and one with service tokens,
    stream the same frames. *)
Lemma streams_agree_on_sample_requests :
  let request1 :=
    {| headers := [("authorization", "Bearer alice-token")];
       request_json := Ok JNull |} in
  let request2 :=
    {| headers := [("x-jira-token", "bob-jira"); ("x-confluence-token", "bob-wiki")];
       request_json := Ok JNull |} in
  let evs := Resume Next :: sample_events in
  configured 1%positive sample_world ∧
  configured 2%positive sample_world ∧
  (sse_connection 1%positive 2%positive ready_capabilities sample_dumps
     request1 evs sample_world sample_sse).1
  = (sse_connection 1%positive 2%positive ready_capabilities sample_dumps
       request2 evs sample_world sample_sse).1.
Proof.
  intros request1 request2 evs.
  split; [exact sample_jira_configured|].
  split; [exact sample_confluence_configured|].
  destruct (sse_stream_is_independent_of_auth_headers
              1%positive 2%positive ready_capabilities sample_dumps
              request1 request2 evs sample_world sample_sse
              sample_jira_configured sample_confluence_configured)
    as (w1 & w2 & _ & _ & H & _).
  exact H.
Defined.

(** ** Instances for the endpoint's branches *)

(** A [tools/list] request is an object: it is answered with an envelope for
    its id. *)
Lemma object_body_on_sample :
  let request :=
    {| headers := [("authorization", "Bearer alice-token")];
       request_json := Ok (JObj [("jsonrpc", JStr "2.0");
                                 ("id", JInt 3);
                                 ("method", JStr "tools/list")]) |} in
  ∃ envelope w',
    mcp_endpoint 1%positive 2%positive sample_capabilities sample_list_tools
      sample_call_tool sample_list_resources sample_repr request sample_world
      = (Ok envelope, w') ∧
    response_for (JInt 3) envelope.
Proof.
  intros request.
  exact (mcp_endpoint_object_body 1%positive 2%positive sample_capabilities
           sample_list_tools sample_call_tool sample_list_resources sample_repr
           request _ sample_world eq_refl).
Defined.

(** A body that is a JSON string. *)
Lemma string_body_escapes_on_sample :
  let request := {| headers := []; request_json := Ok (JStr "ping") |} in
  (∀ fields, JStr "ping" ≠ JObj fields) ∧
  mcp_endpoint 1%positive 2%positive sample_capabilities sample_list_tools
    sample_call_tool sample_list_resources sample_repr request sample_world
  = (Raised (Exn "AttributeError" "'str' object has no attribute 'get'"), sample_world).
Proof.
  intros request.
  assert (∀ fields, JStr "ping" ≠ JObj fields) as Hno by done.
  split; [exact Hno|].
  exact (non_object_body_escapes_the_endpoint 1%positive 2%positive
           sample_capabilities sample_list_tools sample_call_tool
           sample_list_resources sample_repr request (JStr "ping") sample_world
           eq_refl Hno).
Defined.

(** The sample [tools/call] with a Jira token: the handler's content comes
    back under the id 7 and the call ran on the client made for the token. *)
Lemma tool_content_on_sample :
  let resolved :=
    make_temp_clients 1%positive 2%positive (Some "alice-token") None sample_world in
  let answer :=
    process_mcp_request 1%positive 2%positive sample_capabilities sample_list_tools
      sample_call_tool sample_list_resources sample_repr
      tools_call_request (Some "alice-token") None sample_world in
  resolved.1 = Ok (Some 6%positive, None) ∧
  answer.1 = Ok (result_envelope (JInt 7)
                   (JObj [("content",
                           JArr [JObj [("type", JStr "text");
                                       ("text", JStr "done")]])])) ∧
  calls answer.2 = [CallTool (JStr "get-issue") (JObj [("key", JStr "PROJ-1")])
                      6%positive 2%positive].
Proof.
  intros resolved answer.
  assert (resolved = (Ok (Some 6%positive, None), resolved.2)) as Hres by by vm_compute.
  split; [by rewrite Hres|].
  subst answer. unfold tools_call_request.
  rewrite (tools_call_wraps_result_or_reports_failure 1%positive 2%positive
             sample_capabilities sample_list_tools sample_call_tool
             sample_list_resources sample_repr
             [("jsonrpc", JStr "2.0"); ("id", JInt 7); ("method", JStr "tools/call");
              ("params", JObj [("name", JStr "get-issue");
                               ("arguments", JObj [("key", JStr "PROJ-1")])])]
             [("name", JStr "get-issue"); ("arguments", JObj [("key", JStr "PROJ-1")])]
             (Some "alice-token") None sample_world (Some 6%positive) None
             resolved.2 eq_refl eq_refl Hres).
  split; by vm_compute.
Defined.

(** [tools/call] with positional parameters. *)
Lemma positional_params_on_sample :
  let fields := [("jsonrpc", JStr "2.0"); ("id", JInt 8);
                 ("method", JStr "tools/call");
                 ("params", JArr [JStr "get-issue"])] in
  (∀ pfields, JArr [JStr "get-issue"] ≠ JObj pfields) ∧
  (process_mcp_request 1%positive 2%positive sample_capabilities sample_list_tools
     sample_call_tool sample_list_resources sample_repr
     (JObj fields) None None sample_world)
  = (Ok (internal_error (JInt 8) "'list' object has no attribute 'get'"),
     sample_world).
Proof.
  intros fields.
  assert (∀ pfields, JArr [JStr "get-issue"] ≠ JObj pfields) as Hno by done.
  split; [exact Hno|].
  exact (proj1 (tools_call_with_non_object_params_is_an_internal_error
                  1%positive 2%positive sample_capabilities sample_list_tools
                  sample_call_tool sample_list_resources sample_repr
                  fields (JArr [JStr "get-issue"]) None None sample_world
                  (None, None) sample_world eq_refl eq_refl Hno eq_refl)).
Defined.

(** [tools/list] with a Jira token: the listing is entered with the default
    clients 1 and 2, although a client was made for the token. *)
Lemma tools_list_on_sample :
  let fields := [("jsonrpc", JStr "2.0"); ("id", JInt 3);
                 ("method", JStr "tools/list")] in
  let resolved :=
    make_temp_clients 1%positive 2%positive (Some "alice-token") None sample_world in
  let answer :=
    process_mcp_request 1%positive 2%positive sample_capabilities sample_list_tools
      sample_call_tool sample_list_resources sample_repr
      (JObj fields) (Some "alice-token") None sample_world in
  resolved.1 = Ok (Some 6%positive, None) ∧
  calls answer.2 = [ListTools 1%positive 2%positive].
Proof.
  intros fields resolved answer.
  assert (resolved = (Ok (Some 6%positive, None), resolved.2)) as Hres by by vm_compute.
  split; [by rewrite Hres|].
  subst answer.
  rewrite (tools_list_runs_on_the_bound_clients 1%positive 2%positive
             sample_capabilities sample_list_tools sample_call_tool
             sample_list_resources sample_repr fields
             (Some "alice-token") None sample_world _ resolved.2 eq_refl Hres).
  reflexivity.
Defined.

(** [initialize] on the deployment. *)
Lemma initialize_on_sample :
  let fields := [("jsonrpc", JStr "2.0"); ("id", JInt 1);
                 ("method", JStr "initialize")] in
  process_mcp_request 1%positive 2%positive sample_capabilities sample_list_tools
    sample_call_tool sample_list_resources sample_repr
    (JObj fields) None None sample_world
  = (Ok (result_envelope (JInt 1)
           (JObj [("protocolVersion", JStr "2024-11-05");
                  ("capabilities", JObj [("tools", JObj [])]);
                  ("serverInfo", server_info)])),
     sample_world).
Proof.
  intros fields.
  exact (proj1 (initialize_reports_capabilities 1%positive 2%positive
                  sample_capabilities sample_list_tools sample_call_tool
                  sample_list_resources sample_repr fields None None sample_world
                  (None, None) sample_world eq_refl eq_refl)).
Defined.

(** [resources/list] with a token for each service: the listing ran on the
    two clients made for the tokens. *)
Lemma resources_list_on_sample :
  let fields := [("jsonrpc", JStr "2.0"); ("id", JInt 4);
                 ("method", JStr "resources/list")] in
  let resolved :=
    make_temp_clients 1%positive 2%positive (Some "alice-token") (Some "bob-token")
      sample_world in
  let answer :=
    process_mcp_request 1%positive 2%positive sample_capabilities sample_list_tools
      sample_call_tool sample_list_resources sample_repr
      (JObj fields) (Some "alice-token") (Some "bob-token") sample_world in
  resolved.1 = Ok (Some 6%positive, Some 8%positive) ∧
  answer.1 = Ok (result_envelope (JInt 4) (JObj [("resources", JArr [])])) ∧
  calls answer.2 = [ListResources 6%positive 8%positive] ∧
  server_jira_client (store answer.2) = 1%positive ∧
  server_confluence_client (store answer.2) = 2%positive.
Proof.
  intros fields resolved answer.
  assert (resolved = (Ok (Some 6%positive, Some 8%positive), resolved.2)) as Hres
    by by vm_compute.
  split; [by rewrite Hres|].
  subst answer.
  rewrite (resources_list_wraps_entries_or_reports_failure 1%positive 2%positive
             sample_capabilities sample_list_tools sample_call_tool
             sample_list_resources sample_repr fields
             (Some "alice-token") (Some "bob-token") sample_world
             (Some 6%positive) (Some 8%positive) resolved.2 eq_refl Hres).
  split_and!; by vm_compute.
Defined.

(** ** Instances for the transport, the client and the launchers *)

(** The first connection on the empty transport gets the queue 1. *)
Lemma first_queue_on_sample :
  connected_clients sample_transport ⊆ dom (queues sample_transport) ∧
  (add_client sample_transport).1 = 1%positive ∧
  queues (add_client sample_transport).2 !! 1%positive = Some [] ∧
  size (connected_clients (add_client sample_transport).2) = 1.
Proof.
  assert (connected_clients sample_transport ⊆ dom (queues sample_transport)) as Hsub
    by (intros q Hq; by apply not_elem_of_empty in Hq).
  split; [exact Hsub|]. split; [reflexivity|].
  destruct (add_client_registers_a_new_empty_queue sample_transport Hsub)
    as (_ & _ & Hq & _ & Hsize & _).
  split; [exact Hq|]. rewrite Hsize. reflexivity.
Defined.

(** A connection that sees two messages, while another connection comes and
    goes, and that misses the message sent after it has left. *)
Lemma queue_contents_on_sample :
  let during := [Send (JStr "first"); Join; Leave 2%positive; Send (JStr "second")] in
  let after := [Send (JStr "third"); Join] in
  let joined := (add_client sample_transport).2 in
  (∀ q, Leave q ∈ during → q ≠ (add_client sample_transport).1) ∧
  queues (apply_ops sample_dumps after
            (remove_client 1%positive (apply_ops sample_dumps during joined)))
    !! 1%positive
  = Some [sample_dumps (JStr "first"); sample_dumps (JStr "second")].
Proof.
  intros during after joined.
  assert (∀ q, Leave q ∈ during → q ≠ (add_client sample_transport).1) as Hno.
  { intros q Hq. subst during.
    repeat (apply elem_of_cons in Hq as [Hq|Hq]; [by simplify_eq|]).
    by apply elem_of_nil in Hq. }
  split; [exact Hno|].
  exact (proj1 (proj2 (proj2
           (queue_holds_the_messages_sent_while_registered sample_dumps
              sample_transport during after Hno)))).
Defined.

(** A client with a Jira token only, behind an HTTP client that adds its
    own headers: the server uses that token for both services. *)
Lemma jira_token_alone_serves_both_services :
  let others := [("host", "localhost:8000"); ("content-type", "application/json")] in
  headers_get others "authorization" = None ∧
  headers_get others "x-jira-token" = None ∧
  headers_get others "x-confluence-token" = None ∧
  request_tokens (received (connect_headers (Some "alice-token") None) others)
  = (Some "alice-token", Some "alice-token").
Proof.
  intros others. split_and!; [reflexivity..|].
  exact (connect_headers_resolve_to_the_client_tokens (Some "alice-token") None others
           eq_refl eq_refl eq_refl).
Defined.

(** The three requests of the client on the deployment whose tool handler
    raises: the first and the last return, the tool call raises the client's
    exception. *)
Lemma client_requests_on_sample :
  served_by 1%positive 2%positive ready_capabilities sample_list_tools
    failing_call_tool sample_list_resources sample_repr
    (received (connect_headers (Some "alice-token") None) [])
    (direct_post 1%positive 2%positive ready_capabilities sample_list_tools
       failing_call_tool sample_list_resources sample_repr
       (received (connect_headers (Some "alice-token") None) [])) ∧
  result_or_error sample_repr "Initialization failed: "
    (initialize sample_repr (direct_post 1%positive 2%positive ready_capabilities sample_list_tools
       failing_call_tool sample_list_resources sample_repr
       (received (connect_headers (Some "alice-token") None) [])) sample_world).1 ∧
  result_or_error sample_repr "Tool call failed: "
    (call_tool sample_repr (direct_post 1%positive 2%positive ready_capabilities sample_list_tools
       failing_call_tool sample_list_resources sample_repr
       (received (connect_headers (Some "alice-token") None) [])) "get-issue"
       (JObj [("key", JStr "PROJ-1")]) sample_world).1 ∧
  result_or_error sample_repr "List tools failed: "
    (list_tools sample_repr (direct_post 1%positive 2%positive ready_capabilities sample_list_tools
       failing_call_tool sample_list_resources sample_repr
       (received (connect_headers (Some "alice-token") None) [])) sample_world).1.
Proof.
  split; [apply direct_post_served|].
  exact (client_requests_end_in_a_result_or_the_reported_error
           1%positive 2%positive ready_capabilities sample_list_tools
           failing_call_tool sample_list_resources sample_repr
           (received (connect_headers (Some "alice-token") None) [])
           (direct_post 1%positive 2%positive ready_capabilities sample_list_tools
       failing_call_tool sample_list_resources sample_repr
       (received (connect_headers (Some "alice-token") None) [])) "get-issue"
           (JObj [("key", JStr "PROJ-1")]) sample_world
           (direct_post_served _ _ _ _ _ _ _ _)).
Defined.

(** [call_tool] on the deployment: the content of the sample handler. *)
Lemma client_call_tool_on_sample :
  let hs := received (connect_headers (Some "alice-token") None) [] in
  let resolved :=
    make_temp_clients 1%positive 2%positive (request_tokens hs).1 (request_tokens hs).2
      sample_world in
  resolved.1 = Ok (Some 6%positive, Some 8%positive) ∧
  (call_tool sample_repr (direct_post 1%positive 2%positive ready_capabilities sample_list_tools
       sample_call_tool sample_list_resources sample_repr
       (received (connect_headers (Some "alice-token") None) [])) "get-issue"
     (JObj [("key", JStr "PROJ-1")]) sample_world).1
  = Ok (JObj [("content", JArr [JObj [("type", JStr "text"); ("text", JStr "done")]])]).
Proof.
  intros hs resolved.
  assert (resolved = (Ok (Some 6%positive, Some 8%positive), resolved.2)) as Hres
    by by vm_compute.
  split; [by rewrite Hres|].
  exact (call_tool_returns_the_content_or_raises_the_tool_failure
           1%positive 2%positive ready_capabilities sample_list_tools
           sample_call_tool sample_list_resources sample_repr
           hs (direct_post 1%positive 2%positive ready_capabilities sample_list_tools
       sample_call_tool sample_list_resources sample_repr
       (received (connect_headers (Some "alice-token") None) [])) "get-issue"
           (JObj [("key", JStr "PROJ-1")]) sample_world
           (Some 6%positive) (Some 8%positive) resolved.2
           (direct_post_served _ _ _ _ _ _ _ _) Hres).
Defined.

Lemma sample_environ_complete var :
  var ∈ run_sse.required_env_vars → truthy (getenv sample_environ var) = true.
Proof.
  intros Hvar. unfold run_sse.required_env_vars in Hvar.
  repeat (apply elem_of_cons in Hvar as [->|Hvar]; [reflexivity|]).
  by apply elem_of_nil in Hvar.
Qed.

(** [--reload --workers 4], stopped with Ctrl-C: one call, one worker, exit
    code 0. *)
Lemma reload_with_four_workers_on_sample :
  ∃ call,
    (run_sse.main (λ _, Interrupted) sample_args sample_environ).2 = [call] ∧
    run_sse.run_workers call = 1%Z ∧
    (run_sse.main (λ _, Interrupted) sample_args sample_environ).1.1 = Some 0%Z.
Proof.
  destruct (run_sse_starts_one_server_with_one_worker_under_reload
              (λ _, Interrupted) sample_args sample_environ sample_environ_complete)
    as (call & Hcalls & Hworkers & _ & Hcode).
  exists call. split; [exact Hcalls|]. split; [exact Hworkers|exact Hcode].
Defined.

(** The environment that satisfies both launchers. *)
Lemma both_launchers_accept_sample_environ :
  run_sse.missing_vars sample_environ = [] ∧
  (start_sse.check_env_vars sample_environ).1 = true.
Proof.
  split; [reflexivity|].
  exact (proj2 (launchers_agree_only_with_a_user_name_or_personal_token
                  sample_environ eq_refl) eq_refl).
Defined.
